(** * Blogicum request handlers (blog/views.py, blog/mixins.py)

    A shallow embedding of the view layer of the blog application: the
    query builder [create_queryset], the permission mixins and the
    class-based and function views.  The database is a record of finite
    maps keyed by primary key, the handlers are computations in a small
    state-and-exception monad that also keeps a log of what was done. *)

From stdpp Require Import gmap strings list sorting.
From Stdlib Require Import ZArith.

Open Scope Z_scope.

(** ** Data model *)

(** Modelled from the spec: blog/models.py, which declares the models, is
    missing; the records hold the fields that views.py and mixins.py read
    or write, and [user_data] and [post_data] stand for the rest. *)

Record User := { username : string; user_data : string }.

Record Category := { slug : string; category_is_published : bool }.

(** [author] and [category] are foreign keys, kept as primary keys of the
    referenced rows.  The category may be NULL (or dangling), which makes
    [post.category.is_published] fail; the views are modelled for both. *)
Record Post := {
  author : Z;
  category : option Z;
  pub_date : Z;
  is_published : bool;
  post_data : string
}.

Record Comment := {
  comment_author : Z;
  comment_post : Z;
  comment_text : string
}.

Record DB := {
  users : gmap Z User;
  categories : gmap Z Category;
  posts : gmap Z Post;
  comments : gmap Z Comment
}.

#[global] Instance User_eq_dec : EqDecision User.
Proof. solve_decision. Defined.
#[global] Instance Category_eq_dec : EqDecision Category.
Proof. solve_decision. Defined.
#[global] Instance Post_eq_dec : EqDecision Post.
Proof. solve_decision. Defined.
#[global] Instance Comment_eq_dec : EqDecision Comment.
Proof. solve_decision. Defined.

(** ** Querysets over posts *)

Module QS.

(** A manager over posts: [Post.objects], [category.posts] and
    [author.posts] are the ones [create_queryset] is called with; any
    other manager is given by the rows it keeps. *)
Inductive Manager :=
| Post_objects
| category_posts (category_pk : Z)
| author_posts (author_pk : Z)
| other_manager (keeps : Post → bool).

(** Keyword arguments of [.filter(...)]. *)
Inductive Lookup :=
| pub_date__lt (t : Z)
| is_published_ (b : bool)
| category__is_published (b : bool).

#[global] Instance Lookup_eq_dec : EqDecision Lookup.
Proof. solve_decision. Defined.

(** A queryset is the chain of calls that built it. *)
Inductive QuerySet :=
| from_manager (m : Manager)
| select_related (q : QuerySet) (fields : list string)
| filter_ (q : QuerySet) (conds : list Lookup)
| annotate_comment_count (q : QuerySet)   (* .annotate(comment_count=Count('comments')) *)
| order_by_pub_date_desc (q : QuerySet).  (* .order_by('-pub_date') *)

(** A result row: the post, its primary key and the annotation if any. *)
Record Row := {
  row_pk : Z;
  row_post : Post;
  comment_count : option nat
}.

#[global] Instance Row_eq_dec : EqDecision Row.
Proof. solve_decision. Defined.

Definition in_manager (m : Manager) (p : Post) : bool :=
  match m with
  | Post_objects => true
  | category_posts c => bool_decide (category p = Some c)
  | author_posts u => bool_decide (author p = u)
  | other_manager keeps => keeps p
  end.

Definition manager_rows (d : DB) (m : Manager) : list Row :=
  (λ kp : Z * Post, {| row_pk := kp.1; row_post := kp.2; comment_count := None |})
    <$> filter (λ kp : Z * Post, in_manager m kp.2) (map_to_list (posts d)).

(** One lookup on one post; [category__is_published] joins the category
    table, so a post without category row never matches. *)
Definition lookup_holds (d : DB) (p : Post) (c : Lookup) : bool :=
  match c with
  | pub_date__lt t => bool_decide (pub_date p < t)
  | is_published_ b => bool_decide (is_published p = b)
  | category__is_published b =>
      match category p with
      | Some ck =>
          match categories d !! ck with
          | Some cat => bool_decide (category_is_published cat = b)
          | None => false
          end
      | None => false
      end
  end.

Definition conds_hold (d : DB) (conds : list Lookup) (r : Row) : bool :=
  forallb (lookup_holds d (row_post r)) conds.

Definition count_comments (d : DB) (post_pk : Z) : nat :=
  length (filter (λ kc : Z * Comment, comment_post kc.2 = post_pk)
                 (map_to_list (comments d))).

Definition annotate_row (d : DB) (r : Row) : Row :=
  {| row_pk := row_pk r; row_post := row_post r;
     comment_count := Some (count_comments d (row_pk r)) |}.

(** [r1] may come before [r2] under [-pub_date]. *)
Definition newer_first (r1 r2 : Row) : Prop :=
  pub_date (row_post r2) ≤ pub_date (row_post r1).

#[global] Instance newer_first_dec r1 r2 : Decision (newer_first r1 r2).
Proof. unfold newer_first. apply _. Defined.

Fixpoint eval (d : DB) (q : QuerySet) : list Row :=
  match q with
  | from_manager m => manager_rows d m
  | select_related q _ => eval d q
  | filter_ q conds => filter (λ r, conds_hold d conds r) (eval d q)
  | annotate_comment_count q => annotate_row d <$> eval d q
  | order_by_pub_date_desc q => merge_sort newer_first (eval d q)
  end.

(** Structural queries on the chain. *)
Fixpoint has_filter (conds : list Lookup) (q : QuerySet) : bool :=
  match q with
  | from_manager _ => false
  | select_related q _ => has_filter conds q
  | filter_ q cs => bool_decide (cs = conds) || has_filter conds q
  | annotate_comment_count q => has_filter conds q
  | order_by_pub_date_desc q => has_filter conds q
  end.

Fixpoint has_any_filter (q : QuerySet) : bool :=
  match q with
  | from_manager _ => false
  | select_related q _ => has_any_filter q
  | filter_ _ _ => true
  | annotate_comment_count q => has_any_filter q
  | order_by_pub_date_desc q => has_any_filter q
  end.

Fixpoint has_annotation (q : QuerySet) : bool :=
  match q with
  | from_manager _ => false
  | select_related q _ => has_annotation q
  | filter_ q _ => has_annotation q
  | annotate_comment_count _ => true
  | order_by_pub_date_desc q => has_annotation q
  end.

Fixpoint has_ordering (q : QuerySet) : bool :=
  match q with
  | from_manager _ => false
  | select_related q _ => has_ordering q
  | filter_ q _ => has_ordering q
  | annotate_comment_count q => has_ordering q
  | order_by_pub_date_desc _ => true
  end.

End QS.
Import QS.

(** ** views.create_queryset

    [now] is the value of [timezone.now()]; it is only read when
    [filters] holds. *)
Definition publication_filters (now : Z) : list Lookup :=
  [pub_date__lt now; is_published_ true; category__is_published true].

Definition create_queryset (now : Z) (manager : Manager)
    (filters annotations : bool) : QuerySet :=
  let queryset := select_related (from_manager manager)
                    ["author"; "location"; "category"]%string in
  let queryset :=
    if filters then filter_ queryset (publication_filters now) else queryset in
  let queryset :=
    if annotations
    then order_by_pub_date_desc (annotate_comment_count queryset)
    else queryset in
  queryset.

(** ** Requests, responses and the world the handlers run in *)

Inductive Method := GET | HEAD | POST | PUT | PATCH | DELETE | OPTIONS | TRACE.

(** [request.user]: the anonymous user or a row of the user table, as
    loaded by the authentication middleware. *)
Inductive RequestUser :=
| AnonymousUser
| Authenticated (pk : Z) (u : User).

Definition QueryDict := list (string * string).

(** [request.GET.get('page')]: absent (or empty), the digits of an
    integer, the word last, or anything else. *)
Inductive PageParam :=
| no_page
| page_number (n : Z)
| page_last
| page_other.

Record Request := {
  method : Method;
  user : RequestUser;
  POST_data : QueryDict;
  GET_page : PageParam
}.

Definition is_authenticated (u : RequestUser) : bool :=
  match u with AnonymousUser => false | Authenticated _ _ => true end.

(** [obj.author != request.user]: model instances are equal when their
    primary keys are; the anonymous user is equal to no row. *)
Definition author_differs (author_pk : Z) (u : RequestUser) : bool :=
  match u with
  | AnonymousUser => true
  | Authenticated pk _ => bool_decide (author_pk ≠ pk)
  end.

Inductive Url :=
| url_index
| url_login
| url_post_detail (post_id : Z)
| url_profile (name : string).

(** What a template is rendered with. *)
Inductive TemplateContext :=
| list_context (object_list : list Row)
    (category_ : option Category) (profile : option User)
| detail_context (object : Post) (comments_ : list (Z * Comment))
| form_context (object_pk : option Z) (bound : bool)
| confirm_delete_context (object_pk : Z).

Inductive Exception :=
| Http404
| AttributeError
| ValueError
| NoReverseMatch
| MultipleObjectsReturned.

Inductive Response :=
| Render (template : string) (ctx : TemplateContext)   (* 200 *)
| Redirect (to : Url)                          (* 302 *)
| Forbidden                                    (* HttpResponseForbidden, 403 *)
| NotFound                                     (* Http404 reaching the framework *)
| NotAllowed                                   (* 405 *)
| OptionsReply                                 (* View.options *)
| ServerError (e : Exception).                 (* any other exception, 500 *)

Inductive Model := MUser | MCategory | MPost | MComment.

(** What the log records. *)
Inductive Event :=
| LoginCheck              (* is_authenticated tested by login_required / LoginRequiredMixin *)
| AuthorCheck             (* [obj.author != request.user] evaluated *)
| DbQuery (m : Model)     (* a queryset on [m] is built from a manager and run *)
| DbWrite (m : Model)     (* save() or delete() reaches the database *)
| CacheClear              (* cache.clear() *)
| Handler (m : Method).   (* the body of the view for this method is entered *)

#[global] Instance Model_eq_dec : EqDecision Model.
Proof. solve_decision. Defined.
#[global] Instance Method_eq_dec : EqDecision Method.
Proof. solve_decision. Defined.
#[global] Instance Event_eq_dec : EqDecision Event.
Proof. solve_decision. Defined.
#[global] Instance Url_eq_dec : EqDecision Url.
Proof. solve_decision. Defined.

Record World := {
  db : DB;
  cache : gmap string string;
  trace : list Event
}.

Inductive Result (A : Type) :=
| Ok (a : A)
| Raise (e : Exception).
Arguments Ok {A} a.
Arguments Raise {A} e.

(** State and exceptions: a raised exception keeps the state reached. *)
Definition M (A : Type) : Type := World → Result A * World.

#[global] Instance M_ret : MRet M := λ A a w, (Ok a, w).
#[global] Instance M_bind : MBind M := λ A B f m w,
  match m w with
  | (Ok a, w') => f a w'
  | (Raise e, w') => (Raise e, w')
  end.

Definition raise {A} (e : Exception) : M A := λ w, (Raise e, w).

Definition log (e : Event) : M unit := λ w,
  (Ok (), {| db := db w; cache := cache w; trace := trace w ++ [e] |}).

Definition get_db : M DB := λ w, (Ok (db w), w).

Definition put_db (d : DB) : M unit := λ w,
  (Ok (), {| db := d; cache := cache w; trace := trace w |}).

(** [django.core.cache.cache.clear()] *)
Definition cache_clear : M unit := λ w,
  (Ok (), {| db := db w; cache := ∅; trace := trace w ++ [CacheClear] |}).

(** ** The object-relational mapper, as far as the views use it *)

Definition set_users (f : gmap Z User → gmap Z User) (d : DB) : DB :=
  {| users := f (users d); categories := categories d;
     posts := posts d; comments := comments d |}.
Definition set_posts (f : gmap Z Post → gmap Z Post) (d : DB) : DB :=
  {| users := users d; categories := categories d;
     posts := f (posts d); comments := comments d |}.
Definition set_comments (f : gmap Z Comment → gmap Z Comment) (d : DB) : DB :=
  {| users := users d; categories := categories d;
     posts := posts d; comments := f (comments d) |}.

(** Primary key given to a row inserted without one: one past the largest
    key in the table. *)
Definition next_pk {A} (t : gmap Z A) : Z :=
  1 + foldr Z.max 0 (map_to_list t).*1.

(** [Model.objects.get(pk=pk)] under [get_object_or_404], and
    [SingleObjectMixin.get_object] with a [pk_url_kwarg]: the row or
    [Http404]. *)
Definition get_object_or_404 {A} (m : Model) (table : DB → gmap Z A)
    (pk : Z) : M A :=
  log (DbQuery m);;
  d ← get_db;
  match table d !! pk with
  | Some x => mret x
  | None => raise Http404
  end.

(** [get_object_or_404(Model, field=..., ...)] on fields other than the
    key: no row is [Http404], several rows is [MultipleObjectsReturned]. *)
Definition get_object_or_404_by {A} (m : Model) (table : DB → gmap Z A)
    (cond : A → bool) : M (Z * A) :=
  log (DbQuery m);;
  d ← get_db;
  match filter (λ kx : Z * A, cond kx.2) (map_to_list (table d)) with
  | [] => raise Http404
  | [kx] => mret kx
  | _ => raise MultipleObjectsReturned
  end.

(** [instance.save()] of a new row, and of a row that has a key. *)
Definition Post_insert (p : Post) : M Z :=
  d ← get_db;
  let pk := next_pk (posts d) in
  put_db (set_posts (insert pk p) d);; log (DbWrite MPost);; mret pk.
Definition Post_update (pk : Z) (p : Post) : M unit :=
  d ← get_db; put_db (set_posts (insert pk p) d);; log (DbWrite MPost).
Definition Comment_insert (c : Comment) : M Z :=
  d ← get_db;
  let pk := next_pk (comments d) in
  put_db (set_comments (insert pk c) d);; log (DbWrite MComment);; mret pk.
Definition Comment_update (pk : Z) (c : Comment) : M unit :=
  d ← get_db; put_db (set_comments (insert pk c) d);; log (DbWrite MComment).
Definition User_insert (u : User) : M Z :=
  d ← get_db;
  let pk := next_pk (users d) in
  put_db (set_users (insert pk u) d);; log (DbWrite MUser);; mret pk.
Definition User_update (pk : Z) (u : User) : M unit :=
  d ← get_db; put_db (set_users (insert pk u) d);; log (DbWrite MUser).

(** [post.comments.all()] *)
Definition post_comments (d : DB) (post_pk : Z) : gmap Z Comment :=
  filter (λ kc : Z * Comment, comment_post kc.2 = post_pk) (comments d).

(** [post.comments.all().delete()] *)
Definition post_comments_delete (post_pk : Z) : M unit :=
  log (DbQuery MComment);;
  d ← get_db;
  put_db (set_comments
            (filter (λ kc : Z * Comment, comment_post kc.2 ≠ post_pk)) d);;
  log (DbWrite MComment).

(** [post.delete()]: the row goes, and so does every comment row still
    pointing at it (the collector follows the foreign key; in
    [PostDeleteView.delete] none is left by then). *)
Definition Post_delete (pk : Z) : M unit :=
  d ← get_db;
  put_db (set_posts (delete pk)
            (set_comments
               (filter (λ kc : Z * Comment, comment_post kc.2 ≠ pk)) d));;
  log (DbWrite MPost).

(** [comment.delete()] *)
Definition Comment_delete (pk : Z) : M unit :=
  d ← get_db; put_db (set_comments (delete pk) d);; log (DbWrite MComment).

(** ** Forms

    blog/forms.py declares the three model forms; they are taken as
    parameters.  A model form bound to submitted data and to an instance
    ([None] when the form is built without one) either is invalid or
    yields the instance with the form's fields set. *)
Class Forms := {
  PostEditForm : QueryDict → option Post → option Post;
  CommentEditForm : QueryDict → option Comment → option Comment;
  UserEditForm : QueryDict → option User → option User
}.

(** ** Framework: login checks and method dispatch

    The generic views are those of Django 3.2, the release this project
    is written against: [DeleteView.post] calls [self.delete]. *)

(** [request.user] where a saved user row is needed: assigning the
    anonymous user to a foreign key is a [ValueError]. *)
Definition user_instance (request : Request) : M (Z * User) :=
  match user request with
  | Authenticated pk u => mret (pk, u)
  | AnonymousUser => raise ValueError
  end.

(** [View.dispatch]: the handler named after the method, the built-in
    [options], or 405. *)
Definition View_dispatch (request : Request)
    (handlers : Method → option (M Response)) : M Response :=
  match handlers (method request) with
  | Some handler => log (Handler (method request));; handler
  | None =>
      match method request with
      | OPTIONS => mret OptionsReply
      | _ => mret NotAllowed
      end
  end.

(** [LoginRequiredMixin.dispatch] *)
Definition LoginRequiredMixin_dispatch (request : Request)
    (super_dispatch : M Response) : M Response :=
  log LoginCheck;;
  if is_authenticated (user request) then super_dispatch
  else mret (Redirect url_login).

(** [@login_required] around a view function *)
Definition login_required (request : Request) (view : M Response)
    : M Response :=
  log LoginCheck;;
  if is_authenticated (user request)
  then log (Handler (method request));; view
  else mret (Redirect url_login).

(** Handler tables of the generic views: [ListView]/[DetailView],
    [CreateView]/[UpdateView] (where [put] calls [post]) and [DeleteView]
    (where [post] calls [delete]). *)
Definition read_handlers (get : M Response) (m : Method)
    : option (M Response) :=
  match m with
  | GET | HEAD => Some get
  | _ => None
  end.
Definition form_handlers (get post : M Response) (m : Method)
    : option (M Response) :=
  match m with
  | GET | HEAD => Some get
  | POST | PUT => Some post
  | _ => None
  end.
Definition delete_handlers (get delete : M Response) (m : Method)
    : option (M Response) :=
  match m with
  | GET | HEAD => Some get
  | POST | DELETE => Some delete
  | _ => None
  end.

(** [settings.MAX_POST_ON_PAGE] (the settings module is a parameter). *)
Class Settings := { MAX_POST_ON_PAGE : nat }.

(** [Paginator.num_pages] with no orphans and an empty first page
    allowed: [ceil(max(1, count) / per_page)]. *)
Definition num_pages (count per_page : nat) : nat :=
  ((Nat.max 1 count + per_page - 1) / per_page)%nat.

(** [Paginator.page(number)]: [None] stands for [InvalidPage]. *)
Definition Paginator_page {A} (object_list : list A) (per_page : nat)
    (number : Z) : option (list A) :=
  if bool_decide (number < 1) then None
  else if bool_decide (number > Z.of_nat (num_pages (length object_list) per_page))
          && negb (bool_decide (number = 1))
  then None
  else Some (take per_page
               (drop ((Z.to_nat number - 1) * per_page) object_list)).

(** [MultipleObjectMixin.paginate_queryset], called by
    [get_context_data] when [paginate_by] is not zero; otherwise the
    whole list goes to the template.  [None] becomes [Http404]. *)
Definition paginate_queryset {A} (object_list : list A) (page_size : nat)
    (page : PageParam) : option (list A) :=
  if bool_decide (page_size = 0%nat) then Some object_list
  else
    match page with
    | no_page => Paginator_page object_list page_size 1
    | page_number n => Paginator_page object_list page_size n
    | page_last =>
        Paginator_page object_list page_size
          (Z.of_nat (num_pages (length object_list) page_size))
    | page_other => None
    end.

(** What the framework does with a handler's outcome. *)
Definition respond (m : M Response) (w : World) : Response * World :=
  match m w with
  | (Ok r, w') => (r, w')
  | (Raise Http404, w') => (NotFound, w')
  | (Raise e, w') => (ServerError e, w')
  end.

(** ** The views *)

Section Views.
Context `{F : Forms} `{cfg : Settings}.

(** Evaluation of a post queryset by the framework. *)
Definition run_queryset (q : QuerySet) : M (list Row) :=
  log (DbQuery MPost);; d ← get_db; mret (eval d q).

(** [BaseListView.get] with [paginate_by = settings.MAX_POST_ON_PAGE] and
    the context additions of the subclass: the template gets the rows of
    the requested page. *)
Definition BaseListView_get (request : Request) (template : string)
    (get_queryset : M (QuerySet * option Category * option User))
    : M Response :=
  '(q, category_, profile) ← get_queryset;
  rows ← run_queryset q;
  match paginate_queryset rows MAX_POST_ON_PAGE (GET_page request) with
  | Some object_list =>
      mret (Render template (list_context object_list category_ profile))
  | None => raise Http404
  end.

(** *** IndexListView

    The class attribute [queryset = create_queryset()] is built once,
    when the module is imported; [import_time] is [timezone.now()] at
    that moment.  [MultipleObjectMixin.get_queryset] takes
    [queryset.all()] and applies [ordering = '-pub_date']. *)
Definition IndexListView_queryset (import_time : Z) : QuerySet :=
  create_queryset import_time Post_objects true true.

Definition IndexListView_get_queryset (import_time : Z) : QuerySet :=
  order_by_pub_date_desc (IndexListView_queryset import_time).

Definition IndexListView_dispatch (import_time : Z) (request : Request)
    : M Response :=
  View_dispatch request
    (read_handlers
       (BaseListView_get request "blog/index.html"
          (mret (IndexListView_get_queryset import_time, None, None)))).

(** *** CategoryListView *)
Definition CategoryListView_get_queryset (now : Z) (category_slug : string)
    : M (QuerySet * option Category * option User) :=
  '(category_pk, category_) ←
     get_object_or_404_by MCategory categories
       (λ c, bool_decide (slug c = category_slug) && category_is_published c);
  mret (create_queryset now (category_posts category_pk) true true,
        Some category_, None).

Definition CategoryListView_dispatch (now : Z) (request : Request)
    (category_slug : string) : M Response :=
  View_dispatch request
    (read_handlers
       (BaseListView_get request "blog/category.html"
          (CategoryListView_get_queryset now category_slug))).

(** *** ProfileListView *)
Definition ProfileListView_get_queryset (now : Z) (request : Request)
    (name : string) : M (QuerySet * option Category * option User) :=
  '(author_pk, author_) ←
     get_object_or_404_by MUser users (λ u, bool_decide (username u = name));
  log AuthorCheck;;
  let queryset :=
    if author_differs author_pk (user request)
    then create_queryset now (author_posts author_pk) true true
    else create_queryset now (author_posts author_pk) false true in
  mret (queryset, None, Some author_).

Definition ProfileListView_dispatch (now : Z) (request : Request)
    (name : string) : M Response :=
  View_dispatch request
    (read_handlers
       (BaseListView_get request "blog/profile.html"
          (ProfileListView_get_queryset now request name))).

(** *** add_comment *)
Definition Comment_for (c : Comment) (author_pk post_pk : Z) : Comment :=
  {| comment_author := author_pk; comment_post := post_pk;
     comment_text := comment_text c |}.

Definition add_comment (request : Request) (post_id : Z) : M Response :=
  login_required request (
    _ ← get_object_or_404 MPost posts post_id;
    match CommentEditForm (POST_data request) None with
    | Some commentary =>
        '(user_pk, _) ← user_instance request;
        _ ← Comment_insert (Comment_for commentary user_pk post_id);
        mret (Redirect (url_post_detail post_id))
    | None => mret (Redirect (url_post_detail post_id))
    end).

(** *** ProfileSuccessUrlMixin *)
Definition ProfileSuccessUrlMixin_get_success_url (request : Request)
    : M Url :=
  match user request with
  | Authenticated _ u => mret (url_profile (username u))
  | AnonymousUser => raise NoReverseMatch
  end.

(** *** PostCreateView *)
Definition Post_by (p : Post) (author_pk : Z) : Post :=
  {| author := author_pk; category := category p; pub_date := pub_date p;
     is_published := is_published p; post_data := post_data p |}.

Definition PostCreateView_form_valid (request : Request) (instance : Post)
    : M Response :=
  '(user_pk, _) ← user_instance request;
  _ ← Post_insert (Post_by instance user_pk);
  url ← ProfileSuccessUrlMixin_get_success_url request;
  mret (Redirect url).

Definition PostCreateView_post (request : Request) : M Response :=
  match PostEditForm (POST_data request) None with
  | Some instance => PostCreateView_form_valid request instance
  | None => mret (Render "blog/create.html" (form_context None true))
  end.

Definition PostCreateView_dispatch (request : Request) : M Response :=
  LoginRequiredMixin_dispatch request
    (View_dispatch request
       (form_handlers
          (mret (Render "blog/create.html" (form_context None false)))
          (PostCreateView_post request))).

(** *** PostDetailView *)
Definition PostDetailView_get_object (now : Z) (request : Request)
    (post_id : Z) : M Post :=
  post ← get_object_or_404 MPost posts post_id;
  log AuthorCheck;;
  if author_differs (author post) (user request) then
    if negb (is_published post) then raise Http404
    else
      d ← get_db;
      match category post ≫= (λ ck, categories d !! ck) with
      | None => raise AttributeError
      | Some cat =>
          if negb (category_is_published cat) then raise Http404
          else if bool_decide (pub_date post > now) then raise Http404
          else mret post
      end
  else mret post.

Definition PostDetailView_get_context_data (post_id : Z) (post : Post)
    : M TemplateContext :=
  log (DbQuery MComment);;
  d ← get_db;
  mret (detail_context post (map_to_list (post_comments d post_id))).

Definition PostDetailView_dispatch (now : Z) (request : Request)
    (post_id : Z) : M Response :=
  View_dispatch request
    (read_handlers (
       post ← PostDetailView_get_object now request post_id;
       context ← PostDetailView_get_context_data post_id post;
       mret (Render "blog/detail.html" context))).

(** *** ProfileUpdateView

    [get_object] is [request.user]; the form writes into that very
    object, so the success URL is built from the submitted username. *)
Definition ProfileUpdateView_post (request : Request) : M Response :=
  '(user_pk, u) ← user_instance request;
  match UserEditForm (POST_data request) (Some u) with
  | Some u' =>
      User_update user_pk u';;
      mret (Redirect (url_profile (username u')))
  | None => mret (Render "blog/user.html" (form_context (Some user_pk) true))
  end.

Definition ProfileUpdateView_get (request : Request) : M Response :=
  '(user_pk, _) ← user_instance request;
  mret (Render "blog/user.html" (form_context (Some user_pk) false)).

Definition ProfileUpdateView_dispatch (request : Request) : M Response :=
  LoginRequiredMixin_dispatch request
    (View_dispatch request
       (form_handlers (ProfileUpdateView_get request)
                      (ProfileUpdateView_post request))).

(** *** mixins.CommonPostMixin and PostUpdateView *)
Definition CommonPostMixin_dispatch (request : Request) (post_id : Z)
    (super_dispatch : M Response) : M Response :=
  post ← get_object_or_404 MPost posts post_id;
  log AuthorCheck;;
  if author_differs (author post) (user request)
  then mret (Redirect (url_post_detail post_id))
  else LoginRequiredMixin_dispatch request super_dispatch.

(** [BaseUpdateView.get] and [.post] on posts: [get_object], then the
    form; a valid form is saved and the client is sent to
    [get_success_url()]. *)
Definition PostUpdateView_get (post_id : Z) : M Response :=
  _ ← get_object_or_404 MPost posts post_id;
  mret (Render "blog/create.html" (form_context (Some post_id) false)).

Definition PostUpdateView_post (request : Request) (post_id : Z)
    : M Response :=
  object ← get_object_or_404 MPost posts post_id;
  match PostEditForm (POST_data request) (Some object) with
  | Some object' =>
      Post_update post_id object';;
      mret (Redirect (url_post_detail post_id))
  | None =>
      mret (Render "blog/create.html" (form_context (Some post_id) true))
  end.

Definition PostUpdateView_dispatch (request : Request) (post_id : Z)
    : M Response :=
  CommonPostMixin_dispatch request post_id
    (View_dispatch request
       (form_handlers (PostUpdateView_get post_id)
                      (PostUpdateView_post request post_id))).

(** *** PostDeleteView *)

(** [DeletionMixin.delete], reached through [super().delete(...)] *)
Definition DeletionMixin_delete_Post (post_id : Z) (success_url : Url)
    : M Response :=
  _ ← get_object_or_404 MPost posts post_id;
  Post_delete post_id;;
  mret (Redirect success_url).

Definition PostDeleteView_delete (post_id : Z) : M Response :=
  _ ← get_object_or_404 MPost posts post_id;
  post_comments_delete post_id;;
  cache_clear;;
  DeletionMixin_delete_Post post_id url_index.

Definition PostDeleteView_get (post_id : Z) : M Response :=
  _ ← get_object_or_404 MPost posts post_id;
  mret (Render "blog/create.html" (confirm_delete_context post_id)).

Definition PostDeleteView_dispatch (request : Request) (post_id : Z)
    : M Response :=
  object ← get_object_or_404 MPost posts post_id;
  log AuthorCheck;;
  if author_differs (author object) (user request)
  then mret Forbidden
  else
    LoginRequiredMixin_dispatch request
      (View_dispatch request
         (delete_handlers (PostDeleteView_get post_id)
                          (PostDeleteView_delete post_id))).

(** *** mixins.CommentMixin and CommentUpdateView *)
Definition CommentMixin_dispatch (request : Request) (comment_id : Z)
    (super_dispatch : M Response) : M Response :=
  comment ← get_object_or_404 MComment comments comment_id;
  log AuthorCheck;;
  if author_differs (comment_author comment) (user request)
  then mret (Redirect (url_post_detail (comment_post comment)))
  else LoginRequiredMixin_dispatch request super_dispatch.

Definition CommentUpdateView_get (comment_id : Z) : M Response :=
  _ ← get_object_or_404 MComment comments comment_id;
  mret (Render "blog/comment.html" (form_context (Some comment_id) false)).

Definition CommentUpdateView_post (request : Request)
    (post_id comment_id : Z) : M Response :=
  object ← get_object_or_404 MComment comments comment_id;
  match CommentEditForm (POST_data request) (Some object) with
  | Some object' =>
      Comment_update comment_id object';;
      mret (Redirect (url_post_detail post_id))
  | None =>
      mret (Render "blog/comment.html" (form_context (Some comment_id) true))
  end.

Definition CommentUpdateView_dispatch (request : Request)
    (post_id comment_id : Z) : M Response :=
  CommentMixin_dispatch request comment_id
    (View_dispatch request
       (form_handlers (CommentUpdateView_get comment_id)
                      (CommentUpdateView_post request post_id comment_id))).

(** *** CommentDeleteView *)
Definition CommentDeleteView_delete (post_id comment_id : Z) : M Response :=
  _ ← get_object_or_404 MComment comments comment_id;
  Comment_delete comment_id;;
  mret (Redirect (url_post_detail post_id)).

Definition CommentDeleteView_get (comment_id : Z) : M Response :=
  _ ← get_object_or_404 MComment comments comment_id;
  mret (Render "blog/comment.html" (confirm_delete_context comment_id)).

Definition CommentDeleteView_dispatch (request : Request)
    (post_id comment_id : Z) : M Response :=
  comment ← get_object_or_404 MComment comments comment_id;
  log AuthorCheck;;
  if author_differs (comment_author comment) (user request)
  then mret Forbidden
  else
    LoginRequiredMixin_dispatch request
      (View_dispatch request
         (delete_handlers (CommentDeleteView_get comment_id)
                          (CommentDeleteView_delete post_id comment_id))).

(** *** ProfileCreateView *)
Definition ProfileCreateView_post (request : Request) : M Response :=
  match UserEditForm (POST_data request) None with
  | Some u => _ ← User_insert u; mret (Redirect url_login)
  | None =>
      mret (Render "registration/registration_form.html"
              (form_context None true))
  end.

Definition ProfileCreateView_dispatch (request : Request) : M Response :=
  View_dispatch request
    (form_handlers
       (mret (Render "registration/registration_form.html"
                (form_context None false)))
       (ProfileCreateView_post request)).

(** ** The request-handling layer as a whole *)

(** One constructor per view, with the arguments its URL carries. *)
Inductive View :=
| IndexListView
| CategoryListView (category_slug : string)
| ProfileListView (name : string)
| AddComment (post_id : Z)
| PostCreateView
| PostDetailView (post_id : Z)
| ProfileUpdateView
| PostUpdateView (post_id : Z)
| PostDeleteView (post_id : Z)
| CommentUpdateView (post_id comment_id : Z)
| CommentDeleteView (post_id comment_id : Z)
| ProfileCreateView.

Definition view_body (import_time now : Z) (v : View) (request : Request)
    : M Response :=
  match v with
  | IndexListView => IndexListView_dispatch import_time request
  | CategoryListView s => CategoryListView_dispatch now request s
  | ProfileListView name => ProfileListView_dispatch now request name
  | AddComment post_id => add_comment request post_id
  | PostCreateView => PostCreateView_dispatch request
  | PostDetailView post_id => PostDetailView_dispatch now request post_id
  | ProfileUpdateView => ProfileUpdateView_dispatch request
  | PostUpdateView post_id => PostUpdateView_dispatch request post_id
  | PostDeleteView post_id => PostDeleteView_dispatch request post_id
  | CommentUpdateView p c => CommentUpdateView_dispatch request p c
  | CommentDeleteView p c => CommentDeleteView_dispatch request p c
  | ProfileCreateView => ProfileCreateView_dispatch request
  end.

(** Serving one request: [import_time] is when the module was loaded,
    [now] the clock during the request. *)
Definition serve (import_time now : Z) (v : View) (request : Request)
    (w : World) : Response * World :=
  respond (view_body import_time now v request) w.

End Views.

(** ** Vocabulary of the statements *)

(** The world [w] after the events [evs] were logged and nothing else
    happened. *)
Definition logged (w : World) (evs : list Event) : World :=
  {| db := db w; cache := cache w; trace := trace w ++ evs |}.

(** What was logged between [w] and a later world [w']. *)
Definition events (w w' : World) : list Event :=
  drop (length (trace w)) (trace w').

Definition is_check (e : Event) : bool :=
  match e with LoginCheck | AuthorCheck => true | _ => false end.

Definition is_query (e : Event) : bool :=
  match e with DbQuery _ => true | _ => false end.

Definition is_write (e : Event) : bool :=
  match e with DbWrite _ => true | _ => false end.

Definition is_handler (e : Event) : bool :=
  match e with Handler _ => true | _ => false end.

Definition count_queries (evs : list Event) : nat :=
  length (List.filter is_query evs).

(** Every write in [evs] comes after a check ([checked]: one was already
    seen). *)
Fixpoint writes_guarded (checked : bool) (evs : list Event) : bool :=
  match evs with
  | [] => true
  | e :: rest =>
      if is_write e then checked && writes_guarded checked rest
      else writes_guarded (checked || is_check e) rest
  end.

Definition is_access (e : Event) : bool := is_query e || is_write e.

(** [evs] after its leading checks. *)
Fixpoint after_checks (evs : list Event) : list Event :=
  match evs with
  | e :: rest => if is_check e then after_checks rest else evs
  | [] => []
  end.

(** The shape of a log that holds an authorization check and then
    exactly one database read or write (handler entries and cache events
    aside). *)
Definition check_then_one_access (evs : list Event) : bool :=
  let relevant := List.filter (λ e, is_check e || is_access e) evs in
  match relevant with
  | e :: _ =>
      is_check e
      && match after_checks relevant with
         | [a] => is_access a
         | _ => false
         end
  | [] => false
  end.

(** The publication condition on a row, spelled out. *)
Definition row_visible (d : DB) (now : Z) (r : Row) : Prop :=
  pub_date (row_post r) < now
  ∧ is_published (row_post r) = true
  ∧ ∃ ck cat, category (row_post r) = Some ck
              ∧ categories d !! ck = Some cat
              ∧ category_is_published cat = true.

(** The author of the object a mutation view is aimed at:
    [get_object_or_404(Post, pk=post_id).author] for the post views,
    [get_object_or_404(Comment, pk=comment_id).author] for the comment
    views. *)
Definition target_author (d : DB) (v : View) : option Z :=
  match v with
  | PostUpdateView post_id | PostDeleteView post_id =>
      author <$> posts d !! post_id
  | CommentUpdateView _ comment_id | CommentDeleteView _ comment_id =>
      comment_author <$> comments d !! comment_id
  | _ => None
  end.

(** ** CommentDeleteView.get_context_data *)

(** [del d[key]]: [None] stands for [KeyError]. *)
Definition dict_del {V} (key : string) (d : gmap string V)
    : option (gmap string V) :=
  match d !! key with
  | Some _ => Some (delete key d)
  | None => None
  end.

(** The context of the parent class with the form taken out, if there is
    one. *)
Definition CommentDeleteView_get_context_data {V}
    (super_context : gmap string V) : option (gmap string V) :=
  let context := super_context in
  if bool_decide (is_Some (context !! "form"%string))
  then dict_del "form" context
  else Some context.

(** A key the database can hold and look up: a signed 64-bit integer.
    (The lookup of a larger number fails before it reaches the table.) *)
Definition database_key (k : Z) : Prop := - 2 ^ 63 ≤ k < 2 ^ 63.

(** Every comment points at a post that exists. *)
Definition comments_have_posts (d : DB) : Prop :=
  ∀ k c, comments d !! k = Some c → is_Some (posts d !! comment_post c).

(** ** Sample data *)

Module Sample.

Definition forms : Forms := {|
  PostEditForm q inst :=
    match q with
    | [] => None
    | (_, v) :: _ =>
        Some {| author := default 0 (author <$> inst); category := Some 1;
                pub_date := 5; is_published := true; post_data := v |}
    end;
  CommentEditForm q inst :=
    match q with
    | [] => None
    | (_, v) :: _ =>
        Some {| comment_author := default 0 (comment_author <$> inst);
                comment_post := default 0 (comment_post <$> inst);
                comment_text := v |}
    end;
  UserEditForm q inst :=
    match q with
    | [] => None
    | (_, v) :: _ => Some {| username := v; user_data := EmptyString |}
    end
|}.

Definition alice : User := {| username := "alice"; user_data := EmptyString |}.
Definition bob : User := {| username := "bob"; user_data := EmptyString |}.
Definition travel : Category :=
  {| slug := "travel"; category_is_published := true |}.

(** A published post of alice, a draft of alice dated in the future, and
    a published post of bob. *)
Definition post1 : Post :=
  {| author := 1; category := Some 1; pub_date := 5; is_published := true;
     post_data := "first" |}.
Definition post2 : Post :=
  {| author := 1; category := None; pub_date := 50; is_published := false;
     post_data := "draft" |}.
Definition post3 : Post :=
  {| author := 2; category := Some 1; pub_date := 7; is_published := true;
     post_data := "third" |}.

Definition comment1 : Comment :=
  {| comment_author := 2; comment_post := 1; comment_text := "nice" |}.
Definition comment2 : Comment :=
  {| comment_author := 1; comment_post := 3; comment_text := "thanks" |}.

Definition db0 : DB :=
  {| users := <[1 := alice]> (<[2 := bob]> ∅);
     categories := <[1 := travel]> ∅;
     posts := <[1 := post1]> (<[2 := post2]> (<[3 := post3]> ∅));
     comments := <[1 := comment1]> (<[2 := comment2]> ∅) |}.

Definition w0 : World :=
  {| db := db0; cache := <["index" := "<html>"]> ∅; trace := [] |}.

Definition settings : Settings := {| MAX_POST_ON_PAGE := 10 |}.

Definition as_user (m : Method) (u : RequestUser) (q : QueryDict) : Request :=
  {| method := m; user := u; POST_data := q; GET_page := no_page |}.

Definition by_alice (m : Method) : Request :=
  as_user m (Authenticated 1 alice) [("text", "hello")].
Definition by_bob (m : Method) : Request :=
  as_user m (Authenticated 2 bob) [("text", "hello")].
Definition by_anonymous (m : Method) : Request :=
  as_user m AnonymousUser [].

End Sample.

(** ** Proof tools *)

(** Run a handler symbolically: unfold the views, the framework and the
    monad down to matches on the database. *)
Ltac exec :=
  cbv beta iota zeta delta
    [serve respond view_body
     IndexListView_dispatch CategoryListView_dispatch ProfileListView_dispatch
     IndexListView_get_queryset IndexListView_queryset
     CategoryListView_get_queryset ProfileListView_get_queryset
     BaseListView_get run_queryset paginate_queryset
     add_comment login_required LoginRequiredMixin_dispatch View_dispatch
     read_handlers form_handlers delete_handlers
     ProfileSuccessUrlMixin_get_success_url user_instance
     PostCreateView_dispatch PostCreateView_post PostCreateView_form_valid
     PostDetailView_dispatch PostDetailView_get_object
     PostDetailView_get_context_data
     ProfileUpdateView_dispatch ProfileUpdateView_get ProfileUpdateView_post
     CommonPostMixin_dispatch PostUpdateView_dispatch PostUpdateView_get
     PostUpdateView_post
     PostDeleteView_dispatch PostDeleteView_get PostDeleteView_delete
     DeletionMixin_delete_Post
     CommentMixin_dispatch CommentUpdateView_dispatch CommentUpdateView_get
     CommentUpdateView_post
     CommentDeleteView_dispatch CommentDeleteView_get CommentDeleteView_delete
     ProfileCreateView_dispatch ProfileCreateView_post
     get_object_or_404 get_object_or_404_by
     Post_insert Post_update Comment_insert Comment_update
     User_insert User_update post_comments_delete Post_delete Comment_delete
     mbind M_bind mret M_ret raise log get_db put_db cache_clear
     set_users set_posts set_comments users categories posts comments
     db cache trace logged method user POST_data GET_page is_authenticated
     fst snd].

Ltac exec_in H :=
  cbv beta iota zeta delta
    [set_users set_posts set_comments users categories posts comments
     db cache trace logged method user POST_data GET_page is_authenticated
     fst snd] in H.

(** Bring a trace [((t ++ [a]) ++ [b]) ++ ...] to the form [t ++ [a; b; ...]]. *)
Ltac flat_trace := rewrite <- ?app_assoc; cbn [app].

(** Case analysis on a scrutinee that is not itself a stuck match; a
    scrutinee already decided by a hypothesis is rewritten. *)
Ltac inner_match :=
  match goal with
  | E : ?x = _ |- context [match ?x with _ => _ end] => rewrite E
  | |- context [match ?x with _ => _ end] =>
      lazymatch x with
      | match _ with _ => _ end => fail
      | (match _ with _ => _ end) _ => fail
      | _ => destruct x eqn:?
      end
  end.

(** Run a handler along every path through the database lookups. *)
Ltac run_all := exec; repeat (inner_match; cbv beta iota).

(** Read the events of a run off the two traces. *)
Ltac norm_events :=
  flat_trace; try unfold events; cbn [trace];
  rewrite ?drop_app_length, ?drop_all.

(** Refute, or check on each element, a membership in an explicit list. *)
Ltac absurd_member H :=
  repeat (apply elem_of_cons in H as [H|H]; [discriminate H|]);
  apply elem_of_nil in H; exact (False_ind _ H).

Ltac all_members H :=
  repeat (apply elem_of_cons in H as [->|H]; [reflexivity|]);
  apply elem_of_nil in H; exact (False_ind _ H).

(** * Properties *)

(** ** Auxiliary facts *)

Lemma events_logged w evs : events w (logged w evs) = evs.
Proof. unfold events, logged; cbn. by rewrite drop_app_length. Qed.

Lemma next_pk_fresh {A} (t : gmap Z A) : t !! next_pk t = None.
Proof.
  destruct (t !! next_pk t) as [x|] eqn:Hx; [|done]. exfalso.
  apply elem_of_map_to_list in Hx.
  assert (Hk : next_pk t ∈ (map_to_list t).*1).
  { apply list_elem_of_fmap. by exists (next_pk t, x). }
  assert (Hmax : ∀ (l : list Z) k, k ∈ l → k ≤ foldr Z.max 0 l).
  { induction l as [|y l IH]; intros k Hin; [by apply elem_of_nil in Hin|].
    apply elem_of_cons in Hin as [->|Hin]; cbn; [lia|].
    specialize (IH k Hin). lia. }
  apply Hmax in Hk. unfold next_pk in Hk. lia.
Qed.

Lemma author_differs_false a u :
  author_differs a u = false ↔ ∃ x, u = Authenticated a x.
Proof.
  destruct u as [|pk x]; cbn.
  - split; [done|]. by intros [? ?].
  - rewrite bool_decide_eq_false. split.
    + intros Hn. exists x. f_equal. symmetry. by apply dec_stable.
    + intros [y Hy]. injection Hy as <- _. auto.
Qed.

(** *** Refusals at dispatch *)

Section Refusal.
Context `{F : Forms} `{cfg : Settings}.
Variables (import_time now : Z) (request : Request) (w : World).

Lemma PostUpdateView_refuses post_id post :
  posts (db w) !! post_id = Some post →
  author_differs (author post) (user request) = true →
  serve import_time now (PostUpdateView post_id) request w
  = (Redirect (url_post_detail post_id),
     logged w [DbQuery MPost; AuthorCheck]).
Proof.
  intros Hp Ha. destruct w as [d c t], request as [m u q pg].
  exec_in Hp; exec_in Ha. exec. rewrite Hp. cbv beta iota. rewrite Ha.
  by flat_trace.
Qed.

Lemma PostDeleteView_refuses post_id post :
  posts (db w) !! post_id = Some post →
  author_differs (author post) (user request) = true →
  serve import_time now (PostDeleteView post_id) request w
  = (Forbidden, logged w [DbQuery MPost; AuthorCheck]).
Proof.
  intros Hp Ha. destruct w as [d c t], request as [m u q pg].
  exec_in Hp; exec_in Ha. exec. rewrite Hp. cbv beta iota. rewrite Ha.
  by flat_trace.
Qed.

Lemma CommentUpdateView_refuses post_id comment_id comment :
  comments (db w) !! comment_id = Some comment →
  author_differs (comment_author comment) (user request) = true →
  serve import_time now (CommentUpdateView post_id comment_id) request w
  = (Redirect (url_post_detail (comment_post comment)),
     logged w [DbQuery MComment; AuthorCheck]).
Proof.
  intros Hp Ha. destruct w as [d c t], request as [m u q pg].
  exec_in Hp; exec_in Ha. exec. rewrite Hp. cbv beta iota. rewrite Ha.
  by flat_trace.
Qed.

Lemma CommentDeleteView_refuses post_id comment_id comment :
  comments (db w) !! comment_id = Some comment →
  author_differs (comment_author comment) (user request) = true →
  serve import_time now (CommentDeleteView post_id comment_id) request w
  = (Forbidden, logged w [DbQuery MComment; AuthorCheck]).
Proof.
  intros Hp Ha. destruct w as [d c t], request as [m u q pg].
  exec_in Hp; exec_in Ha. exec. rewrite Hp. cbv beta iota. rewrite Ha.
  by flat_trace.
Qed.

(** A refused mutation, whatever the view: nothing but the lookup and the
    comparison happened. *)
Lemma mutation_refused v a :
  target_author (db w) v = Some a →
  author_differs a (user request) = true →
  ∃ resp, serve import_time now v request w
          = (resp, logged w [DbQuery (match v with
                                      | PostUpdateView _ | PostDeleteView _ => MPost
                                      | _ => MComment
                                      end); AuthorCheck])
          ∧ (resp = Forbidden ∨ ∃ p, resp = Redirect (url_post_detail p)).
Proof.
  intros Ht Ha. destruct v; try discriminate Ht; cbn in Ht;
    apply fmap_Some in Ht as (x & Hx & ->).
  - eexists. split; [by eapply PostUpdateView_refuses|]. eauto.
  - eexists. split; [by eapply PostDeleteView_refuses|]. eauto.
  - eexists. split; [by eapply CommentUpdateView_refuses|]. eauto.
  - eexists. split; [by eapply CommentDeleteView_refuses|]. eauto.
Qed.

End Refusal.

(** C1: a request to PostUpdateView, PostDeleteView, CommentUpdateView or
    CommentDeleteView whose target exists enters the handler of the view
    or writes to the database only if [request.user] is the author of the
    target; when it is not, the request is refused (403 or a redirect to
    a post page) and database and cache are left as they were. *)
Theorem mutation_only_by_author `{F : Forms} `{cfg : Settings}
    (import_time now : Z)
    (v : View) (request : Request) (w : World) (a : Z) :
  target_author (db w) v = Some a →
  let resp := (serve import_time now v request w).1 in
  let w' := (serve import_time now v request w).2 in
  ((∃ e, e ∈ events w w' ∧ (is_handler e || is_write e) = true)
     → ∃ u, user request = Authenticated a u)
  ∧ (author_differs a (user request) = true →
       db w' = db w ∧ cache w' = cache w
       ∧ (resp = Forbidden ∨ ∃ p, resp = Redirect (url_post_detail p))).
Proof.
  intros Ht resp w'. subst resp w'.
  destruct (author_differs a (user request)) eqn:Ha.
  - destruct (mutation_refused import_time now request w v a Ht Ha)
      as (r & -> & Hr).
    cbn [fst snd]. rewrite events_logged. split.
    + intros (e & He & Hact). exfalso.
      apply elem_of_cons in He as [->|He]; [done|].
      apply elem_of_cons in He as [->|He]; [done|].
      by apply elem_of_nil in He.
    + intros _. done.
  - split; [|done]. intros _. by apply author_differs_false.
Qed.

(** C5: the permission check sits in [dispatch].  When the requester is
    not the author of the post or comment a mutation view is aimed at,
    the log holds the lookup of the object and the comparison and nothing
    else (no handler is entered, nothing is written), the database and
    the cache are untouched, and the answer is a redirect to the detail
    page of the post (update views) or 403 Forbidden (delete views). *)
Theorem refused_at_dispatch `{F : Forms} `{cfg : Settings}
    (import_time now : Z)
    (request : Request) (w : World) :
  (∀ post_id post,
      posts (db w) !! post_id = Some post →
      author_differs (author post) (user request) = true →
      serve import_time now (PostUpdateView post_id) request w
      = (Redirect (url_post_detail post_id),
         logged w [DbQuery MPost; AuthorCheck]))
  ∧ (∀ post_id post,
      posts (db w) !! post_id = Some post →
      author_differs (author post) (user request) = true →
      serve import_time now (PostDeleteView post_id) request w
      = (Forbidden, logged w [DbQuery MPost; AuthorCheck]))
  ∧ (∀ post_id comment_id comment,
      comments (db w) !! comment_id = Some comment →
      author_differs (comment_author comment) (user request) = true →
      serve import_time now (CommentUpdateView post_id comment_id) request w
      = (Redirect (url_post_detail (comment_post comment)),
         logged w [DbQuery MComment; AuthorCheck]))
  ∧ (∀ post_id comment_id comment,
      comments (db w) !! comment_id = Some comment →
      author_differs (comment_author comment) (user request) = true →
      serve import_time now (CommentDeleteView post_id comment_id) request w
      = (Forbidden, logged w [DbQuery MComment; AuthorCheck]))
  ∧ (∀ v a,
      target_author (db w) v = Some a →
      author_differs a (user request) = true →
      ∀ e, e ∈ events w (serve import_time now v request w).2 →
           is_handler e = false ∧ is_write e = false).
Proof.
  split; [|split; [|split; [|split]]].
  - apply PostUpdateView_refuses.
  - apply PostDeleteView_refuses.
  - apply CommentUpdateView_refuses.
  - apply CommentDeleteView_refuses.
  - intros v a Ht Ha e He.
    destruct (mutation_refused import_time now request w v a Ht Ha)
      as (r & Hr & _).
    rewrite Hr in He. cbn [snd] in He. rewrite events_logged in He.
    apply elem_of_cons in He as [->|He]; [done|].
    apply elem_of_cons in He as [->|He]; [done|].
    by apply elem_of_nil in He.
Qed.

(** C6: for a logged-in requester and an existing post, [add_comment]
    answers with a redirect to the detail page of that post whether the
    form is valid or not; the database gains one comment, under an unused
    key, written by the requester for that post, exactly when the
    form is valid (its text is the form's), and with an invalid form the
    database and the cache stay as they were. *)
Theorem add_comment_iff_valid `{F : Forms} `{cfg : Settings}
    (import_time now : Z)
    (request : Request) (w : World) (post_id : Z) (post : Post)
    (user_pk : Z) (u : User) :
  user request = Authenticated user_pk u →
  posts (db w) !! post_id = Some post →
  let resp := (serve import_time now (AddComment post_id) request w).1 in
  let w' := (serve import_time now (AddComment post_id) request w).2 in
  resp = Redirect (url_post_detail post_id)
  ∧ ((∃ k c, comments (db w) !! k = None
             ∧ db w' = set_comments (insert k c) (db w)
             ∧ comment_author c = user_pk ∧ comment_post c = post_id)
     ↔ is_Some (CommentEditForm (POST_data request) None))
  ∧ (∀ c, CommentEditForm (POST_data request) None = Some c →
          db w' = set_comments
                    (insert (next_pk (comments (db w)))
                            (Comment_for c user_pk post_id)) (db w)
          ∧ cache w' = cache w)
  ∧ (CommentEditForm (POST_data request) None = None →
     db w' = db w ∧ cache w' = cache w).
Proof.
  intros Hu Hp resp w'. subst resp w'.
  destruct w as [d c t], request as [m ru q pg]. exec_in Hu; exec_in Hp.
  subst ru. exec. rewrite Hp. cbv beta iota.
  destruct (CommentEditForm q None) as [c0|] eqn:Hf; cbn [fst snd].
  - split; [done|]. split; [|split; [|done]].
    + split; [by eauto|]. intros _.
      exists (next_pk (comments d)), (Comment_for c0 user_pk post_id).
      split; [apply next_pk_fresh|]. done.
    + intros c1 [= <-]. done.
  - split; [done|]. split; [|split; [done|done]].
    split; [|by intros [? ?]].
    intros (k & c1 & Hk & Hd & _). exfalso.
    destruct d as [us cs ps cms]. cbn in Hk.
    unfold set_comments in Hd. cbn in Hd. injection Hd as Hd.
    rewrite Hd, lookup_insert_eq in Hk. done.
Qed.

(** *** Deleting a post *)

Section Deletion.
Context `{F : Forms} `{cfg : Settings}.
Variables (import_time now : Z).

(** What a deletion request of the author does, in one equation. *)
Lemma PostDeleteView_deletes request w post_id post u :
  posts (db w) !! post_id = Some post →
  user request = Authenticated (author post) u →
  method request = POST ∨ method request = DELETE →
  serve import_time now (PostDeleteView post_id) request w
  = (Redirect url_index,
     {| db := set_posts (delete post_id)
                (set_comments
                   (filter (λ kc : Z * Comment, comment_post kc.2 ≠ post_id))
                   (set_comments
                      (filter (λ kc : Z * Comment, comment_post kc.2 ≠ post_id))
                      (db w)));
        cache := ∅;
        trace := trace w ++ [DbQuery MPost; AuthorCheck; LoginCheck;
                             Handler (method request);
                             DbQuery MPost; DbQuery MComment; DbWrite MComment;
                             CacheClear; DbQuery MPost; DbWrite MPost] |}).
Proof.
  intros Hp Hu Hm. destruct w as [d c t], request as [m ru q pg].
  exec_in Hp; exec_in Hu; exec_in Hm. subst ru.
  destruct d as [us cs ps cms]. exec_in Hp.
  assert (Ha : author_differs (author post) (Authenticated (author post) u)
               = false) by (apply author_differs_false; eauto).
  destruct Hm as [-> | ->]; exec; rewrite Hp; cbv beta iota; rewrite Ha;
    cbv beta iota; rewrite Hp; cbv beta iota; rewrite Hp; by flat_trace.
Qed.

End Deletion.

(** C9: when the author deletes a post (POST or DELETE on
    PostDeleteView), the post row is removed, every comment attached to
    that post is removed, every comment of another post and every other
    post is as before, no comment appears, and users and categories are
    not touched. *)
Theorem post_delete_frame `{F : Forms} `{cfg : Settings}
    (import_time now : Z)
    (request : Request) (w : World) (post_id : Z) (post : Post) (u : User) :
  posts (db w) !! post_id = Some post →
  user request = Authenticated (author post) u →
  method request = POST ∨ method request = DELETE →
  let resp := (serve import_time now (PostDeleteView post_id) request w).1 in
  let w' := (serve import_time now (PostDeleteView post_id) request w).2 in
  resp = Redirect url_index
  ∧ posts (db w') !! post_id = None
  ∧ (∀ p, p ≠ post_id → posts (db w') !! p = posts (db w) !! p)
  ∧ (∀ k c, comments (db w) !! k = Some c → comment_post c = post_id →
            comments (db w') !! k = None)
  ∧ (∀ k c, comments (db w) !! k = Some c → comment_post c ≠ post_id →
            comments (db w') !! k = Some c)
  ∧ (∀ k, comments (db w) !! k = None → comments (db w') !! k = None)
  ∧ users (db w') = users (db w)
  ∧ categories (db w') = categories (db w).
Proof.
  intros Hp Hu Hm resp w'. subst resp w'.
  rewrite (PostDeleteView_deletes import_time now request w post_id post u)
    by done.
  cbn [fst snd db]. destruct w as [[us cs ps cms] c t]. cbn.
  split; [done|]. split; [apply lookup_delete_eq|].
  split; [intros p Hne; by apply lookup_delete_ne|].
  split; [|split; [|split; [|done]]].
  - intros k cm Hk Hpost. apply map_lookup_filter_None. right.
    intros cm' Hk'. apply map_lookup_filter_Some in Hk' as [Hk' _].
    rewrite Hk in Hk'. injection Hk' as <-. cbn. auto.
  - intros k cm Hk Hpost.
    apply map_lookup_filter_Some. split; [|done].
    apply map_lookup_filter_Some. done.
  - intros k Hk. apply map_lookup_filter_None. left.
    apply map_lookup_filter_None. by left.
Qed.

(** *** The cache *)

Section Cache.
Context `{F : Forms} `{cfg : Settings}.
Variables (import_time now : Z).

Lemma not_cleared_or_deletion v request w :
  let w' := (serve import_time now v request w).2 in
  (cache w' = cache w ∧ CacheClear ∉ events w w')
  ∨ (∃ post_id post u,
        v = PostDeleteView post_id
        ∧ posts (db w) !! post_id = Some post
        ∧ user request = Authenticated (author post) u
        ∧ (method request = POST ∨ method request = DELETE)).
Proof.
  destruct w as [d c t], request as [m ru q pg].
  destruct v, m; run_all; norm_events.
  all: try (left; split; [reflexivity|]; intros Hin; absurd_member Hin).
  all: right;
    match goal with
    | E : author_differs _ _ = false |- _ =>
        apply author_differs_false in E as [? E]; rewrite E
    end; eauto 10.
Qed.

(** No view looks into the cache: the answer, the database and the log
    are the same whatever the cache holds. *)
Lemma cache_never_read v request w c :
  let r := serve import_time now v request w in
  let r' := serve import_time now v request
              {| db := db w; cache := c; trace := trace w |} in
  r'.1 = r.1 ∧ db r'.2 = db r.2 ∧ trace r'.2 = trace r.2.
Proof.
  destruct w as [d c0 t], request as [m ru q pg].
  destruct v, m; run_all; done.
Qed.
End Cache.

(** *** Rows of the querysets built by [create_queryset] *)

Lemma conds_hold_publication d now r :
  conds_hold d (publication_filters now) r = true ↔ row_visible d now r.
Proof.
  unfold conds_hold, publication_filters, row_visible. simpl.
  rewrite !andb_true_iff.
  destruct (category (row_post r)) as [ck|] eqn:Hc; simpl.
  - destruct (categories d !! ck) as [cat|] eqn:Hk; simpl.
    + rewrite !bool_decide_eq_true. split.
      * intros (? & ? & ? & _). repeat split; eauto.
      * intros (? & ? & ck' & cat' & ? & ? & ?). simplify_eq. auto.
    + split; [intros (_ & _ & ? & _); done|].
      intros (_ & _ & ck' & cat' & ? & ? & _). simplify_eq.
  - split; [intros (_ & _ & ? & _); done|].
    intros (_ & _ & ck' & cat' & ? & _). simplify_eq.
Qed.

Lemma elem_of_manager_rows d m r :
  r ∈ manager_rows d m
  ↔ posts d !! row_pk r = Some (row_post r)
    ∧ in_manager m (row_post r) = true
    ∧ comment_count r = None.
Proof.
  unfold manager_rows. rewrite list_elem_of_fmap. split.
  - intros ([k p] & -> & Hin). apply list_elem_of_filter in Hin as [Hm Hin].
    apply elem_of_map_to_list in Hin. cbn in *.
    split; [done|]. split; [by apply Is_true_true|done].
  - intros (Hp & Hm & Hc). exists (row_pk r, row_post r). split.
    + destruct r; cbn in *. by subst.
    + apply list_elem_of_filter. split; [by apply Is_true_true|].
      by apply elem_of_map_to_list.
Qed.

Lemma elem_of_create_queryset d now m filters annotations r :
  r ∈ eval d (create_queryset now m filters annotations)
  ↔ posts d !! row_pk r = Some (row_post r)
    ∧ in_manager m (row_post r) = true
    ∧ (filters = true → row_visible d now r)
    ∧ comment_count r
      = (if annotations then Some (count_comments d (row_pk r)) else None).
Proof.
  assert (Hfilter : ∀ r,
    r ∈ eval d (if filters
                then filter_ (select_related (from_manager m)
                                ["author"; "location"; "category"]%string)
                             (publication_filters now)
                else select_related (from_manager m)
                       ["author"; "location"; "category"]%string)
    ↔ posts d !! row_pk r = Some (row_post r)
      ∧ in_manager m (row_post r) = true
      ∧ (filters = true → row_visible d now r)
      ∧ comment_count r = None).
  { intros r0. destruct filters; cbn [eval].
    - rewrite list_elem_of_filter, elem_of_manager_rows.
      rewrite Is_true_true, conds_hold_publication.
      split; [intros (Hv & Hp & Hm & Hc)|intros (Hp & Hm & Hv & Hc)]; auto.
    - rewrite elem_of_manager_rows.
      split; [intros (Hp & Hm & Hc)|intros (Hp & Hm & _ & Hc)]; auto.
      repeat split; [done..|discriminate|done]. }
  unfold create_queryset. destruct annotations; cbn zeta.
  - cbn [eval]. rewrite merge_sort_Permutation, list_elem_of_fmap. split.
    + intros (r0 & -> & Hin). apply Hfilter in Hin as (? & ? & ? & ?).
      cbn. auto.
    + intros (Hp & Hm & Hv & Hc).
      exists {| row_pk := row_pk r; row_post := row_post r;
                comment_count := None |}.
      split; [destruct r; cbn in *; by subst|].
      apply Hfilter. cbn. auto.
  - rewrite Hfilter. done.
Qed.

#[local] Instance newer_first_total : Total newer_first.
Proof. intros r1 r2. unfold newer_first. lia. Qed.

#[local] Instance newer_first_trans : Transitive newer_first.
Proof. intros r1 r2 r3. unfold newer_first. lia. Qed.

(** C2: for every manager and both flags, the publication filters
    ([pub_date] before [now], [is_published], [category.is_published])
    are in the chain exactly when [filters] is set (and no other filter
    ever is), the [comment_count] annotation and the descending
    [pub_date] ordering are in the chain exactly when [annotations] is
    set.  On a database, the rows are the manager's rows, kept only if
    they pass the publication condition when [filters] is set, each
    carrying its number of comments and sorted by descending [pub_date]
    when [annotations] is set; with both flags off they are the manager's
    rows as they come. *)
Theorem create_queryset_flags (now : Z) (manager : Manager)
    (filters annotations : bool) :
  let q := create_queryset now manager filters annotations in
  (has_filter (publication_filters now) q = true ↔ filters = true)
  ∧ (has_any_filter q = true ↔ filters = true)
  ∧ (has_annotation q = true ↔ annotations = true)
  ∧ (has_ordering q = true ↔ annotations = true)
  ∧ (∀ d, eval d q
          = (if annotations
             then λ l, merge_sort newer_first (annotate_row d <$> l)
             else λ l, l)
              ((if filters
                then filter (λ r, conds_hold d (publication_filters now) r)
                else λ l, l)
                 (manager_rows d manager)))
  ∧ (∀ d r, r ∈ eval d q
            ↔ posts d !! row_pk r = Some (row_post r)
              ∧ in_manager manager (row_post r) = true
              ∧ (filters = true → row_visible d now r)
              ∧ comment_count r
                = (if annotations then Some (count_comments d (row_pk r))
                   else None))
  ∧ (∀ d, annotations = true → StronglySorted newer_first (eval d q))
  ∧ (∀ d, eval d (create_queryset now manager false false)
          = manager_rows d manager).
Proof.
  intros q. subst q.
  split; [|split; [|split; [|split; [|split; [|split; [|split]]]]]].
  - destruct filters, annotations; cbn; rewrite ?bool_decide_eq_true_2 by done;
      done.
  - by destruct filters, annotations.
  - by destruct filters, annotations.
  - by destruct filters, annotations.
  - by destruct filters, annotations.
  - intros d r. apply elem_of_create_queryset.
  - intros d ->. unfold create_queryset. cbn [eval].
    apply StronglySorted_merge_sort; apply _.
  - done.
Qed.

(** The index page orders the class-level queryset once more. *)
Lemma elem_of_index_queryset d import_time r :
  r ∈ eval d (IndexListView_get_queryset import_time)
  ↔ r ∈ eval d (create_queryset import_time Post_objects true true).
Proof.
  unfold IndexListView_get_queryset, IndexListView_queryset.
  cbn [eval]. by rewrite merge_sort_Permutation.
Qed.

(** *** Visibility of a post on its detail page *)

Section Detail.
Context `{F : Forms} `{cfg : Settings}.

Lemma get_object_visible now request w post_id post :
  posts (db w) !! post_id = Some post →
  (∃ t, t ≤ now ∧ row_visible (db w) t
                     {| row_pk := post_id; row_post := post;
                        comment_count := None |}) →
  PostDetailView_get_object now request post_id w
  = (Ok post, logged w [DbQuery MPost; AuthorCheck]).
Proof.
  intros Hp (t & Ht & Hdate & Hpub & ck & cat & Hck & Hcat & Hcpub).
  destruct w as [d c tr], request as [m ru q pg]. cbn in *.
  exec. destruct d as [us cs ps cms]. exec_in Hp. exec_in Hcat.
  rewrite Hp. cbv beta iota.
  destruct (author_differs (author post) ru); [|by flat_trace].
  rewrite Hpub, Hck. cbn [negb option_bind]. cbv beta iota.
  cbv beta iota delta [option_bind]. rewrite Hcat. cbv beta iota.
  rewrite Hcpub. cbn [negb]. cbv beta iota.
  rewrite bool_decide_eq_false_2 by lia. by flat_trace.
Qed.

Lemma get_object_author now request w post_id post u :
  posts (db w) !! post_id = Some post →
  user request = Authenticated (author post) u →
  PostDetailView_get_object now request post_id w
  = (Ok post, logged w [DbQuery MPost; AuthorCheck]).
Proof.
  intros Hp Hu. destruct w as [d c tr], request as [m ru q pg]. cbn in *.
  subst ru. exec. destruct d as [us cs ps cms]. exec_in Hp.
  rewrite Hp. cbv beta iota.
  rewrite (proj2 (author_differs_false (author post) _)) by eauto.
  by flat_trace.
Qed.

End Detail.

Section DetailPage.
Context `{F : Forms} `{cfg : Settings}.
Variables (import_time now : Z).

Lemma detail_renders_visible request w post_id post :
  method request = GET →
  posts (db w) !! post_id = Some post →
  (∃ t, t ≤ now ∧ row_visible (db w) t
                     {| row_pk := post_id; row_post := post;
                        comment_count := None |}) →
  serve import_time now (PostDetailView post_id) request w
  = (Render "blog/detail.html"
       (detail_context post (map_to_list (post_comments (db w) post_id))),
     logged w [Handler GET; DbQuery MPost; AuthorCheck; DbQuery MComment]).
Proof.
  intros Hm Hp (t & Ht & Hdate & Hpub & ck & cat & Hck & Hcat & Hcpub).
  destruct w as [d c tr], request as [m ru q pg]. cbn in *. subst m.
  exec. destruct d as [us cs ps cms]. exec_in Hp. exec_in Hcat.
  rewrite Hp. cbv beta iota.
  destruct (author_differs (author post) ru); [|by flat_trace].
  rewrite Hpub, Hck. cbn [negb]. cbv beta iota delta [option_bind].
  rewrite Hcat. cbv beta iota. rewrite Hcpub. cbn [negb]. cbv beta iota.
  rewrite bool_decide_eq_false_2 by lia. by flat_trace.
Qed.

End DetailPage.

(** C8: a row of a listing built by [create_queryset] with
    [filters=True] (also the index page's queryset) at clock
    [listing_time] can be opened on the detail page by any requester at
    any clock [now] not before [listing_time]: [get_object] returns the
    post and does not raise [Http404], and a GET renders the page. *)
Theorem listed_post_is_viewable `{F : Forms} `{cfg : Settings}
    (import_time listing_time now : Z)
    (manager : Manager) (annotations : bool)
    (request : Request) (w : World) (r : Row) :
  r ∈ eval (db w) (create_queryset listing_time manager true annotations)
  ∨ r ∈ eval (db w) (IndexListView_get_queryset listing_time) →
  listing_time ≤ now →
  PostDetailView_get_object now request (row_pk r) w
  = (Ok (row_post r), logged w [DbQuery MPost; AuthorCheck])
  ∧ (method request = GET →
     serve import_time now (PostDetailView (row_pk r)) request w
     = (Render "blog/detail.html"
          (detail_context (row_post r)
             (map_to_list (post_comments (db w) (row_pk r)))),
        logged w [Handler GET; DbQuery MPost; AuthorCheck; DbQuery MComment])).
Proof.
  intros Hin Hle.
  assert (Hrow : posts (db w) !! row_pk r = Some (row_post r)
                 ∧ row_visible (db w) listing_time r).
  { destruct Hin as [Hin|Hin].
    - apply elem_of_create_queryset in Hin as (? & _ & Hv & _). auto.
    - apply elem_of_index_queryset, elem_of_create_queryset in Hin
        as (? & _ & Hv & _). auto. }
  destruct Hrow as [Hp Hv]. split.
  - apply get_object_visible; [done|]. exists listing_time. done.
  - intros Hm. apply detail_renders_visible; [done..|].
    exists listing_time. done.
Qed.

(** *** The profile page *)

Lemma NoDup_all_equal {A} (l : list A) (a : A) :
  NoDup l → a ∈ l → (∀ x, x ∈ l → x = a) → l = [a].
Proof.
  intros Hnd Hin Hall. destruct l as [|x l]; [by apply elem_of_nil in Hin|].
  assert (x = a) as -> by (apply Hall; left).
  destruct l as [|y l]; [done|]. exfalso.
  assert (y = a) as -> by (apply Hall; right; left).
  apply NoDup_cons in Hnd as [Hnin _]. apply Hnin. left.
Qed.

(** The lookup by username finds the one user of that name. *)
Lemma filter_username_unique (us : gmap Z User) name pk u :
  us !! pk = Some u → username u = name →
  (∀ pk' u', us !! pk' = Some u' → username u' = name → pk' = pk) →
  filter (λ kx : Z * User, bool_decide (username kx.2 = name))
         (map_to_list us) = [(pk, u)].
Proof.
  intros Hu Hname Huniq. apply NoDup_all_equal.
  - apply NoDup_filter, NoDup_map_to_list.
  - apply list_elem_of_filter. split.
    + apply bool_decide_pack. done.
    + by apply elem_of_map_to_list.
  - intros [pk' u'] Hin. apply list_elem_of_filter in Hin as [Hn Hin].
    apply bool_decide_unpack in Hn. apply elem_of_map_to_list in Hin.
    cbn in Hn. assert (pk' = pk) as -> by eauto. congruence.
Qed.

Section ProfilePage.
Context `{F : Forms} `{cfg : Settings}.
Variables (import_time now : Z).

Lemma profile_renders request w name author_pk author_ :
  method request = GET →
  users (db w) !! author_pk = Some author_ →
  username author_ = name →
  (∀ pk' u', users (db w) !! pk' = Some u' → username u' = name →
             pk' = author_pk) →
  serve import_time now (ProfileListView name) request w
  = (match paginate_queryset
             (eval (db w)
                (create_queryset now (author_posts author_pk)
                   (author_differs author_pk (user request)) true))
             MAX_POST_ON_PAGE (GET_page request) with
     | Some object_list =>
         Render "blog/profile.html"
           (list_context object_list None (Some author_))
     | None => NotFound
     end,
     logged w [Handler GET; DbQuery MUser; AuthorCheck; DbQuery MPost]).
Proof.
  intros Hm Hu Hname Huniq.
  pose proof (filter_username_unique _ _ _ _ Hu Hname Huniq) as Hf.
  destruct w as [d c tr], request as [m ru q pg]. cbn in Hm. subst m.
  destruct d as [us cs ps cms]. exec_in Hf.
  cbv beta iota zeta delta
    [serve respond view_body ProfileListView_dispatch View_dispatch
     read_handlers BaseListView_get ProfileListView_get_queryset
     run_queryset get_object_or_404_by
     mbind M_bind mret M_ret raise log get_db
     users categories posts comments
     db cache trace logged method user POST_data GET_page fst snd].
  rewrite Hf. cbv beta iota.
  destruct (author_differs author_pk ru); cbv beta iota;
    match goal with
    | |- context [paginate_queryset ?l ?n ?pg] =>
        destruct (paginate_queryset l n pg)
    end; by flat_trace.
Qed.

End ProfilePage.

(** C10: the author is not subject to the publication rules.
    [PostDetailView.get_object] returns a post to its author whatever
    [is_published], the category and [pub_date] are.  The profile page of
    a user, requested by GET, is cut by the paginator from a list of rows
    which, for the owner, holds every post of theirs (the queryset is
    built with [filters=False]) and, for any other requester, exactly
    those of the user's posts that are published, in a published
    category and dated before [now]. *)
Theorem author_bypasses_visibility `{F : Forms} `{cfg : Settings}
    (import_time now : Z) (request : Request) (w : World) :
  (∀ post_id post u,
      posts (db w) !! post_id = Some post →
      user request = Authenticated (author post) u →
      PostDetailView_get_object now request post_id w
      = (Ok post, logged w [DbQuery MPost; AuthorCheck]))
  ∧ (∀ name author_pk author_,
      method request = GET →
      users (db w) !! author_pk = Some author_ →
      username author_ = name →
      (∀ pk' u', users (db w) !! pk' = Some u' → username u' = name →
                 pk' = author_pk) →
      ∃ rows,
        (serve import_time now (ProfileListView name) request w).1
        = match paginate_queryset rows MAX_POST_ON_PAGE (GET_page request) with
          | Some object_list =>
              Render "blog/profile.html"
                (list_context object_list None (Some author_))
          | None => NotFound
          end
        ∧ ((∃ u, user request = Authenticated author_pk u) →
           rows
           = eval (db w)
               (create_queryset now (author_posts author_pk) false true)
           ∧ ∀ r, r ∈ rows
                  ↔ posts (db w) !! row_pk r = Some (row_post r)
                    ∧ author (row_post r) = author_pk
                    ∧ comment_count r
                      = Some (count_comments (db w) (row_pk r)))
        ∧ (¬ (∃ u, user request = Authenticated author_pk u) →
           rows
           = eval (db w)
               (create_queryset now (author_posts author_pk) true true)
           ∧ ∀ r, r ∈ rows
                  ↔ posts (db w) !! row_pk r = Some (row_post r)
                    ∧ author (row_post r) = author_pk
                    ∧ row_visible (db w) now r
                    ∧ comment_count r
                      = Some (count_comments (db w) (row_pk r)))).
Proof.
  split.
  - intros post_id post u. apply get_object_author.
  - intros name author_pk author_ Hm Hu Hname Huniq.
    rewrite (profile_renders import_time now request w name author_pk author_)
      by done.
    eexists. split; [reflexivity|].
    destruct (author_differs author_pk (user request)) eqn:Ha.
    + split.
      * intros Hown. apply author_differs_false in Hown. congruence.
      * intros _. split; [done|]. intros r.
        rewrite elem_of_create_queryset. cbn [in_manager].
        rewrite bool_decide_eq_true. split.
        -- intros (? & ? & Hv & ?). auto.
        -- intros (? & ? & ? & ?). auto.
    + split.
      * intros _. split; [done|]. intros r.
        rewrite elem_of_create_queryset. cbn [in_manager].
        rewrite bool_decide_eq_true. split.
        -- intros (? & ? & _ & ?). auto.
        -- intros (? & ? & ?). repeat split; [done..|discriminate|done].
      * intros Hnot. exfalso. apply Hnot. by apply author_differs_false.
Qed.

(** C3: the cache is cleared when the author deletes a post, and by
    nothing else.  For every view and request: if the request is a
    deletion of an existing post by its author the cache is empty
    afterwards; [cache.clear()] is in the log only in that case; if it is
    not in the log the cache is as before; and whatever the cache holds,
    the answer, the database and the log are the same (it is never
    read). *)
Theorem cache_cleared_only_by_post_deletion `{F : Forms} `{cfg : Settings}
    (import_time now : Z)
    (v : View) (request : Request) (w : World) :
  let w' := (serve import_time now v request w).2 in
  (∀ post_id post u,
      v = PostDeleteView post_id →
      posts (db w) !! post_id = Some post →
      user request = Authenticated (author post) u →
      method request = POST ∨ method request = DELETE →
      cache w' = ∅ ∧ CacheClear ∈ events w w')
  ∧ (CacheClear ∈ events w w' →
     ∃ post_id post u,
       v = PostDeleteView post_id
       ∧ posts (db w) !! post_id = Some post
       ∧ user request = Authenticated (author post) u
       ∧ (method request = POST ∨ method request = DELETE))
  ∧ (CacheClear ∉ events w w' → cache w' = cache w)
  ∧ (∀ c,
      let r := serve import_time now v request
                 {| db := db w; cache := c; trace := trace w |} in
      r.1 = (serve import_time now v request w).1
      ∧ db r.2 = db w' ∧ trace r.2 = trace w').
Proof.
  intros w'. subst w'. split; [|split; [|split]].
  - intros post_id post u -> Hp Hu Hm.
    rewrite (PostDeleteView_deletes import_time now request w post_id post u)
      by done.
    cbn [snd cache]. split; [done|].
    unfold events. cbn [trace]. rewrite drop_app_length.
    do 7 right. left.
  - intros Hin.
    destruct (not_cleared_or_deletion import_time now v request w)
      as [[_ Hnot]|Hdel]; [by apply Hnot in Hin|done].
  - intros Hnot.
    destruct (not_cleared_or_deletion import_time now v request w)
      as [[Hsame _]|(post_id & post & u & -> & Hp & Hu & Hm)]; [done|].
    exfalso. apply Hnot.
    rewrite (PostDeleteView_deletes import_time now request w post_id post u)
      by done.
    unfold events. cbn [snd trace]. rewrite drop_app_length.
    do 7 right. left.
  - intros c. apply cache_never_read.
Qed.

(** *** Checks and database accesses in the log *)

Lemma writes_guarded_spec evs checked :
  writes_guarded checked evs = true →
  ∀ pre e post, evs = pre ++ e :: post → is_write e = true →
    checked = true ∨ ∃ c, c ∈ pre ∧ is_check c = true.
Proof.
  revert checked. induction evs as [|x evs IH]; intros checked Hg pre e post.
  - intros Heq. by destruct pre.
  - intros Heq Hw. cbn in Hg. destruct pre as [|y pre]; cbn in Heq.
    + injection Heq as -> ->. rewrite Hw in Hg.
      apply andb_true_iff in Hg as [Hc _]. by left.
    + injection Heq as -> ->. destruct (is_write y) eqn:Hy.
      * apply andb_true_iff in Hg as [Hc Hg]. by left.
      * destruct (IH _ Hg pre e post eq_refl Hw) as [Hc|(c & Hin & Hc)].
        -- apply orb_true_iff in Hc as [Hc|Hc]; [by left|].
           right. exists y. split; [left|done].
        -- right. exists c. split; [by right|done].
Qed.

Section Checks.
Context `{F : Forms} `{cfg : Settings}.
Variables (import_time now : Z).

Lemma writes_guarded_serve v request w :
  v ≠ ProfileCreateView →
  writes_guarded false (events w (serve import_time now v request w).2) = true.
Proof.
  intros Hv. destruct w as [d c t], request as [m ru q pg].
  destruct v, m; try done; run_all; norm_events; reflexivity.
Qed.

Lemma public_views_do_not_check v request w :
  v = IndexListView ∨ (∃ s, v = CategoryListView s) ∨ v = ProfileCreateView →
  ∀ e, e ∈ events w (serve import_time now v request w).2 → is_check e = false.
Proof.
  intros Hv. destruct w as [d c t], request as [m ru q pg].
  destruct Hv as [->|[[s ->]| ->]]; destruct m; run_all; norm_events;
    intros e He; all_members He.
Qed.

Lemma add_comment_events request w post_id post user_pk u c :
  user request = Authenticated user_pk u →
  posts (db w) !! post_id = Some post →
  CommentEditForm (POST_data request) None = Some c →
  events w (serve import_time now (AddComment post_id) request w).2
  = [LoginCheck; Handler (method request); DbQuery MPost; DbWrite MComment].
Proof.
  intros Hu Hp Hf. destruct w as [d cc t], request as [m ru q pg].
  destruct d as [us cs ps cms]. exec_in Hu; exec_in Hp; exec_in Hf. subst ru.
  exec. rewrite Hp. cbv beta iota. rewrite Hf. cbv beta iota.
  by norm_events.
Qed.

Lemma registration_events request w u :
  method request = POST →
  UserEditForm (POST_data request) None = Some u →
  events w (serve import_time now ProfileCreateView request w).2
  = [Handler POST; DbWrite MUser].
Proof.
  intros Hm Hf. destruct w as [d cc t], request as [m ru q pg].
  destruct d as [us cs ps cms]. exec_in Hm; exec_in Hf. subst m.
  exec. rewrite Hf. cbv beta iota. by norm_events.
Qed.

End Checks.

(** C4, as amended: every database write of the layer other than the
    insertion of a user by ProfileCreateView comes, within its request,
    after an authorization check (a login check or a comparison of
    [request.user] with an author); IndexListView, CategoryListView and
    ProfileCreateView perform no check at all, and ProfileCreateView
    writes without one; an operation may access the database more than
    once: [add_comment] with a valid form reads the post and then writes
    the comment. *)
Theorem writes_follow_a_check `{F : Forms} `{cfg : Settings}
    (import_time now : Z)
    (v : View) (request : Request) (w : World) :
  let evs := events w (serve import_time now v request w).2 in
  (v ≠ ProfileCreateView →
   ∀ pre e post, evs = pre ++ e :: post → is_write e = true →
     ∃ c, c ∈ pre ∧ is_check c = true)
  ∧ (v = IndexListView ∨ (∃ s, v = CategoryListView s) ∨ v = ProfileCreateView →
     ∀ e, e ∈ evs → is_check e = false)
  ∧ (∀ u, v = ProfileCreateView → method request = POST →
          UserEditForm (POST_data request) None = Some u →
          evs = [Handler POST; DbWrite MUser])
  ∧ (∀ post_id post user_pk u c,
        v = AddComment post_id →
        user request = Authenticated user_pk u →
        posts (db w) !! post_id = Some post →
        CommentEditForm (POST_data request) None = Some c →
        evs = [LoginCheck; Handler (method request);
               DbQuery MPost; DbWrite MComment]).
Proof.
  intros evs. subst evs. split; [|split; [|split]].
  - intros Hv pre e post Heq Hw.
    pose proof (writes_guarded_serve import_time now v request w Hv) as Hg.
    destruct (writes_guarded_spec _ _ Hg pre e post Heq Hw) as [Hc|Hc];
      [discriminate Hc|exact Hc].
  - apply public_views_do_not_check.
  - intros u -> Hm Hf. by eapply registration_events.
  - intros post_id post user_pk u c -> Hu Hp Hf.
    by eapply add_comment_events.
Qed.

(** C7, as amended: not every request builds exactly one queryset.
    PostDetailView, whenever it renders, has built the queryset that
    fetches the post and, after it, a second one for the comments of the
    post, whose rows the page shows; PostDeleteView, whenever the author
    deletes a post, has queried the post and, after it, the comments of
    the post.  Each therefore builds at least two.  (The log holds the
    querysets the views and the generic views build themselves; what the
    framework loads on its own account comes on top.) *)
Theorem querysets_per_request `{F : Forms} `{cfg : Settings}
    (import_time now : Z) (request : Request) (w : World) :
  (∀ post_id t p l,
      (serve import_time now (PostDetailView post_id) request w).1
      = Render t (detail_context p l) →
      (∃ pre mid rest,
          events w (serve import_time now (PostDetailView post_id)
                      request w).2
          = pre ++ DbQuery MPost :: mid ++ DbQuery MComment :: rest)
      ∧ (2 ≤ count_queries
               (events w (serve import_time now (PostDetailView post_id)
                            request w).2))%nat
      ∧ posts (db w) !! post_id = Some p
      ∧ l = map_to_list (post_comments (db w) post_id))
  ∧ (∀ post_id post u,
      posts (db w) !! post_id = Some post →
      user request = Authenticated (author post) u →
      method request = POST ∨ method request = DELETE →
      (∃ pre mid rest,
          events w (serve import_time now (PostDeleteView post_id)
                      request w).2
          = pre ++ DbQuery MPost :: mid ++ DbQuery MComment :: rest)
      ∧ (2 ≤ count_queries
               (events w (serve import_time now (PostDeleteView post_id)
                            request w).2))%nat).
Proof.
  split.
  - intros post_id t p l. destruct w as [d c tr], request as [m ru q pg].
    destruct m; run_all; norm_events; intros Hr; try discriminate Hr;
      injection Hr as _ <- <-;
      (split; [by eexists [Handler _], [AuthorCheck], []|]);
      (split; [cbn; lia|done]).
  - intros post_id post u Hp Hu Hm.
    rewrite (PostDeleteView_deletes import_time now request w post_id post u)
      by done.
    unfold events. cbn [snd trace]. rewrite drop_app_length. split.
    + by eexists [], [AuthorCheck; LoginCheck; Handler _; DbQuery MPost], _.
    + cbn. lia.
Qed.

(** * Further properties of the views *)

(** ** Login and lookups *)

Section Access.
Context `{F : Forms} `{cfg : Settings}.
Variables (import_time now : Z).

(** X1: [add_comment], PostCreateView and ProfileUpdateView send an
    anonymous requester to the login page, whatever the method and the
    submitted data: only the login check is logged, the database and the
    cache are as before. *)
Theorem anonymous_sent_to_login v request w :
  user request = AnonymousUser →
  (∃ post_id, v = AddComment post_id) ∨ v = PostCreateView
    ∨ v = ProfileUpdateView →
  serve import_time now v request w
  = (Redirect url_login, logged w [LoginCheck]).
Proof.
  intros Hu Hv. destruct w as [d c t], request as [m ru q pg].
  exec_in Hu. subst ru.
  destruct Hv as [[post_id ->]|[->| ->]]; exec; by flat_trace.
Qed.

(** X2: what [PostDetailView.get_object] decides for a requester who is
    not the author, on a post whose category row exists: the post is
    returned exactly when it is published, its category is published and
    its [pub_date] is not after [now]; otherwise [Http404] is raised.
    Nothing is written either way. *)
Theorem detail_for_others now' request w post_id post ck cat :
  posts (db w) !! post_id = Some post →
  author_differs (author post) (user request) = true →
  category post = Some ck →
  categories (db w) !! ck = Some cat →
  PostDetailView_get_object now' request post_id w
  = (if is_published post && category_is_published cat
        && bool_decide (pub_date post ≤ now')
     then Ok post else Raise Http404,
     logged w [DbQuery MPost; AuthorCheck]).
Proof.
  intros Hp Ha Hck Hcat. destruct w as [d c t], request as [m ru q pg].
  destruct d as [us cs ps cms]. exec_in Hp; exec_in Ha; exec_in Hcat.
  exec. rewrite Hp. cbv beta iota. rewrite Ha. cbv beta iota.
  destruct (is_published post); cbn [negb andb]; cbv beta iota;
    [|by flat_trace].
  rewrite Hck. cbv beta iota delta [option_bind]. rewrite Hcat.
  cbv beta iota.
  destruct (category_is_published cat); cbn [negb andb]; cbv beta iota;
    [|by flat_trace].
  destruct (decide (pub_date post ≤ now')) as [Hle|Hgt].
  - rewrite (bool_decide_eq_false_2 (pub_date post > now')) by lia.
    rewrite bool_decide_eq_true_2 by done. by flat_trace.
  - rewrite (bool_decide_eq_true_2 (pub_date post > now')) by lia.
    rewrite bool_decide_eq_false_2 by done. by flat_trace.
Qed.

(** X3: the listings ask for [pub_date] strictly before the clock, the
    detail page refuses only a [pub_date] after it.  A published post in
    a published category dated exactly [now'] is therefore returned by
    [get_object] to every requester although no queryset built with
    [filters=True] at that clock holds it. *)
Theorem dated_now_viewable_not_listed now' request w post_id post ck cat :
  posts (db w) !! post_id = Some post →
  category post = Some ck →
  categories (db w) !! ck = Some cat →
  is_published post = true →
  category_is_published cat = true →
  pub_date post = now' →
  PostDetailView_get_object now' request post_id w
  = (Ok post, logged w [DbQuery MPost; AuthorCheck])
  ∧ ∀ manager annotations r,
      r ∈ eval (db w) (create_queryset now' manager true annotations) →
      row_pk r ≠ post_id.
Proof.
  intros Hp Hck Hcat Hpub Hcpub Hdate. split.
  - destruct w as [d c t], request as [m ru q pg].
    destruct d as [us cs ps cms]. exec_in Hp; exec_in Hcat.
    exec. rewrite Hp. cbv beta iota.
    destruct (author_differs (author post) ru); [|by flat_trace].
    rewrite Hpub, Hck. cbn [negb]. cbv beta iota delta [option_bind].
    rewrite Hcat. cbv beta iota. rewrite Hcpub. cbn [negb]. cbv beta iota.
    rewrite bool_decide_eq_false_2 by lia. by flat_trace.
  - intros manager annotations r Hin Heq.
    apply elem_of_create_queryset in Hin as (Hrow & _ & Hv & _).
    destruct (Hv eq_refl) as (Hlt & _).
    assert (row_post r = post) as Hsame by congruence.
    rewrite Hsame in Hlt. lia.
Qed.

(** X4: a request aimed at a row that does not exist, under a key the
    database can hold, is answered 404 after the one lookup, with nothing
    else done: on the detail page (GET or HEAD), and on the four mutation
    views for every requester and method, the anonymous included, since
    there the lookup comes before the login check.  [add_comment] by a
    logged-in user on a missing post is answered 404 as well and writes
    no comment, valid form or not. *)
Theorem missing_object_404 request w :
  (∀ post_id,
      database_key post_id →
      posts (db w) !! post_id = None →
      method request = GET ∨ method request = HEAD →
      serve import_time now (PostDetailView post_id) request w
      = (NotFound, logged w [Handler (method request); DbQuery MPost]))
  ∧ (∀ v,
      (∃ p, v = PostUpdateView p ∧ database_key p
            ∧ posts (db w) !! p = None)
      ∨ (∃ p, v = PostDeleteView p ∧ database_key p
              ∧ posts (db w) !! p = None) →
      serve import_time now v request w
      = (NotFound, logged w [DbQuery MPost]))
  ∧ (∀ v,
      (∃ p c, v = CommentUpdateView p c ∧ database_key c
              ∧ comments (db w) !! c = None)
      ∨ (∃ p c, v = CommentDeleteView p c ∧ database_key c
                ∧ comments (db w) !! c = None) →
      serve import_time now v request w
      = (NotFound, logged w [DbQuery MComment]))
  ∧ (∀ post_id,
      database_key post_id →
      posts (db w) !! post_id = None →
      is_authenticated (user request) = true →
      serve import_time now (AddComment post_id) request w
      = (NotFound,
         logged w [LoginCheck; Handler (method request); DbQuery MPost])).
Proof.
  destruct w as [d c t], request as [m ru q pg].
  destruct d as [us cs ps cms].
  split; [|split; [|split]].
  - intros post_id _ Hp Hm. exec_in Hp. exec_in Hm.
    destruct Hm as [-> | ->]; exec; rewrite Hp; by flat_trace.
  - intros v [(p & -> & _ & Hp)|(p & -> & _ & Hp)]; exec_in Hp; exec;
      rewrite Hp; by flat_trace.
  - intros v [(p & k & -> & _ & Hp)|(p & k & -> & _ & Hp)]; exec_in Hp; exec;
      rewrite Hp; by flat_trace.
  - intros post_id _ Hp Ha. exec_in Hp. exec_in Ha. exec. rewrite Ha.
    cbv beta iota. rewrite Hp. by flat_trace.
Qed.

End Access.

(** ** What the writing views write *)

Section Writes.
Context `{F : Forms} `{cfg : Settings}.
Variables (import_time now : Z).

(** X5: PostCreateView, on POST or PUT by a logged-in user.  A valid form
    adds one post under an unused key, with the requester as author
    whatever author the form instance carried, keeps every existing post,
    and redirects to the requester's profile; an invalid form shows the
    bound form again and changes nothing. *)
Theorem post_create request w user_pk u :
  user request = Authenticated user_pk u →
  method request = POST ∨ method request = PUT →
  let r := serve import_time now PostCreateView request w in
  match PostEditForm (POST_data request) None with
  | Some instance =>
      r.1 = Redirect (url_profile (username u))
      ∧ db r.2 = set_posts (insert (next_pk (posts (db w)))
                              (Post_by instance user_pk)) (db w)
      ∧ posts (db w) !! next_pk (posts (db w)) = None
      ∧ author (Post_by instance user_pk) = user_pk
      ∧ (∀ k p, posts (db w) !! k = Some p → posts (db r.2) !! k = Some p)
      ∧ cache r.2 = cache w
  | None =>
      r = (Render "blog/create.html" (form_context None true),
           logged w [LoginCheck; Handler (method request)])
  end.
Proof.
  intros Hu Hm. destruct w as [d c t], request as [m ru q pg].
  destruct d as [us cs ps cms]. exec_in Hu. exec_in Hm. subst ru.
  cbv zeta. cbn [POST_data].
  destruct Hm as [-> | ->]; exec;
    destruct (PostEditForm q None) as [instance|]; cbv beta iota;
    try (by flat_trace);
    (split; [done|]; split; [done|]; split; [apply next_pk_fresh|];
     split; [done|]; split; [|done];
     intros k p Hk; rewrite lookup_insert_ne; [done|];
     intros <-; by rewrite next_pk_fresh in Hk).
Qed.

(** X6: PostUpdateView, on POST or PUT by the author of an existing post.
    A valid form replaces that one row by the form's instance and
    redirects to the post's detail page; every other post, the comments,
    users, categories and the cache are untouched.  An invalid form shows
    the bound form again and changes nothing. *)
Theorem post_update request w post_id post u :
  posts (db w) !! post_id = Some post →
  user request = Authenticated (author post) u →
  method request = POST ∨ method request = PUT →
  let r := serve import_time now (PostUpdateView post_id) request w in
  match PostEditForm (POST_data request) (Some post) with
  | Some post' =>
      r.1 = Redirect (url_post_detail post_id)
      ∧ db r.2 = set_posts (insert post_id post') (db w)
      ∧ posts (db r.2) !! post_id = Some post'
      ∧ (∀ k, k ≠ post_id → posts (db r.2) !! k = posts (db w) !! k)
      ∧ cache r.2 = cache w
  | None =>
      r = (Render "blog/create.html" (form_context (Some post_id) true),
           logged w [DbQuery MPost; AuthorCheck; LoginCheck;
                     Handler (method request); DbQuery MPost])
  end.
Proof.
  intros Hp Hu Hm. destruct w as [d c t], request as [m ru q pg].
  destruct d as [us cs ps cms]. exec_in Hp. exec_in Hu. exec_in Hm.
  subst ru. cbv zeta. cbn [POST_data].
  assert (Ha : author_differs (author post) (Authenticated (author post) u)
               = false) by (apply author_differs_false; eauto).
  destruct Hm as [-> | ->]; exec; rewrite Hp; cbv beta iota; rewrite Ha;
    cbv beta iota; rewrite Hp; cbv beta iota;
    destruct (PostEditForm q (Some post)) as [post'|]; cbv beta iota;
    try (by flat_trace);
    (split; [done|]; split; [done|]; split; [apply lookup_insert_eq|];
     split; [|done]; intros k Hk; by apply lookup_insert_ne).
Qed.

(** X7: CommentUpdateView, on POST or PUT by the author of an existing
    comment.  A valid form replaces that one comment row and redirects to
    the detail page of the post named in the URL, which need not be the
    post of the comment (a refusal redirects to the comment's own post);
    other comments, posts and the cache are untouched.  An invalid form
    changes nothing. *)
Theorem comment_update request w post_id comment_id comment u :
  comments (db w) !! comment_id = Some comment →
  user request = Authenticated (comment_author comment) u →
  method request = POST ∨ method request = PUT →
  let r := serve import_time now (CommentUpdateView post_id comment_id)
             request w in
  match CommentEditForm (POST_data request) (Some comment) with
  | Some comment' =>
      r.1 = Redirect (url_post_detail post_id)
      ∧ db r.2 = set_comments (insert comment_id comment') (db w)
      ∧ comments (db r.2) !! comment_id = Some comment'
      ∧ (∀ k, k ≠ comment_id →
              comments (db r.2) !! k = comments (db w) !! k)
      ∧ cache r.2 = cache w
  | None =>
      r = (Render "blog/comment.html" (form_context (Some comment_id) true),
           logged w [DbQuery MComment; AuthorCheck; LoginCheck;
                     Handler (method request); DbQuery MComment])
  end.
Proof.
  intros Hp Hu Hm. destruct w as [d c t], request as [m ru q pg].
  destruct d as [us cs ps cms]. exec_in Hp. exec_in Hu. exec_in Hm.
  subst ru. cbv zeta. cbn [POST_data].
  assert (Ha : author_differs (comment_author comment)
                 (Authenticated (comment_author comment) u) = false)
    by (apply author_differs_false; eauto).
  destruct Hm as [-> | ->]; exec; rewrite Hp; cbv beta iota; rewrite Ha;
    cbv beta iota; rewrite Hp; cbv beta iota;
    destruct (CommentEditForm q (Some comment)) as [comment'|];
    cbv beta iota; try (by flat_trace);
    (split; [done|]; split; [done|]; split; [apply lookup_insert_eq|];
     split; [|done]; intros k Hk; by apply lookup_insert_ne).
Qed.

(** X8: CommentDeleteView, on POST or DELETE by the author of an existing
    comment: that comment row is removed and nothing else; the answer is
    a redirect to the detail page of the post named in the URL, and the
    cache is not cleared. *)
Theorem comment_delete request w post_id comment_id comment u :
  comments (db w) !! comment_id = Some comment →
  user request = Authenticated (comment_author comment) u →
  method request = POST ∨ method request = DELETE →
  serve import_time now (CommentDeleteView post_id comment_id) request w
  = (Redirect (url_post_detail post_id),
     {| db := set_comments (delete comment_id) (db w);
        cache := cache w;
        trace := trace w ++ [DbQuery MComment; AuthorCheck; LoginCheck;
                             Handler (method request); DbQuery MComment;
                             DbWrite MComment] |}).
Proof.
  intros Hp Hu Hm. destruct w as [d c t], request as [m ru q pg].
  destruct d as [us cs ps cms]. exec_in Hp. exec_in Hu. exec_in Hm.
  subst ru.
  assert (Ha : author_differs (comment_author comment)
                 (Authenticated (comment_author comment) u) = false)
    by (apply author_differs_false; eauto).
  destruct Hm as [-> | ->]; exec; rewrite Hp; cbv beta iota; rewrite Ha;
    cbv beta iota; rewrite Hp; by flat_trace.
Qed.

(** X9: ProfileUpdateView, on POST or PUT by a logged-in user.  A valid
    form overwrites the requester's own user row and no other, and the
    redirect goes to the profile under the submitted username (the form
    writes into [request.user] itself); an invalid form changes
    nothing. *)
Theorem profile_update request w user_pk u :
  user request = Authenticated user_pk u →
  method request = POST ∨ method request = PUT →
  let r := serve import_time now ProfileUpdateView request w in
  match UserEditForm (POST_data request) (Some u) with
  | Some u' =>
      r.1 = Redirect (url_profile (username u'))
      ∧ db r.2 = set_users (insert user_pk u') (db w)
      ∧ (∀ k, k ≠ user_pk → users (db r.2) !! k = users (db w) !! k)
      ∧ cache r.2 = cache w
  | None =>
      r = (Render "blog/user.html" (form_context (Some user_pk) true),
           logged w [LoginCheck; Handler (method request)])
  end.
Proof.
  intros Hu Hm. destruct w as [d c t], request as [m ru q pg].
  destruct d as [us cs ps cms]. exec_in Hu. exec_in Hm. subst ru.
  cbv zeta. cbn [POST_data].
  destruct Hm as [-> | ->]; exec;
    destruct (UserEditForm q (Some u)) as [u'|]; cbv beta iota;
    try (by flat_trace);
    (split; [done|]; split; [done|]; split; [|done];
     intros k Hk; by apply lookup_insert_ne).
Qed.

(** X10: ProfileCreateView asks for no login.  On POST or PUT a valid
    form adds one user row under an unused key, keeps every existing
    user, and redirects to the login page; an invalid form shows the
    bound form again and changes nothing. *)
Theorem registration request w :
  method request = POST ∨ method request = PUT →
  let r := serve import_time now ProfileCreateView request w in
  match UserEditForm (POST_data request) None with
  | Some u =>
      r.1 = Redirect url_login
      ∧ db r.2 = set_users (insert (next_pk (users (db w))) u) (db w)
      ∧ users (db w) !! next_pk (users (db w)) = None
      ∧ (∀ k x, users (db w) !! k = Some x → users (db r.2) !! k = Some x)
      ∧ cache r.2 = cache w
  | None =>
      r = (Render "registration/registration_form.html"
             (form_context None true),
           logged w [Handler (method request)])
  end.
Proof.
  intros Hm. destruct w as [d c t], request as [m ru q pg].
  destruct d as [us cs ps cms]. exec_in Hm. cbv zeta. cbn [POST_data].
  destruct Hm as [-> | ->]; exec;
    destruct (UserEditForm q None) as [u|]; cbv beta iota;
    try (by flat_trace);
    (split; [done|]; split; [done|]; split; [apply next_pk_fresh|];
     split; [|done];
     intros k x Hk; rewrite lookup_insert_ne; [done|];
     intros <-; by rewrite next_pk_fresh in Hk).
Qed.

End Writes.

(** ** The list pages *)

(** The one row of a table that satisfies a condition. *)
Lemma filter_single {A} (m : gmap Z A) (cond : A → bool) k x :
  m !! k = Some x → cond x = true →
  (∀ k' x', m !! k' = Some x' → cond x' = true → k' = k) →
  filter (λ kx : Z * A, cond kx.2) (map_to_list m) = [(k, x)].
Proof.
  intros Hk Hc Huniq. apply NoDup_all_equal.
  - apply NoDup_filter, NoDup_map_to_list.
  - apply list_elem_of_filter. split; [by apply Is_true_true|].
    by apply elem_of_map_to_list.
  - intros [k' x'] Hin. apply list_elem_of_filter in Hin as [Hn Hin].
    apply Is_true_true in Hn. apply elem_of_map_to_list in Hin. cbn in Hn.
    assert (k' = k) as -> by eauto. congruence.
Qed.

Lemma filter_none {A} (m : gmap Z A) (cond : A → bool) :
  (∀ k x, m !! k = Some x → cond x = false) →
  filter (λ kx : Z * A, cond kx.2) (map_to_list m) = [].
Proof.
  intros Hnone.
  destruct (filter _ (map_to_list m)) as [|[k x] l] eqn:Hf; [done|].
  assert (Hin : (k, x) ∈ filter (λ kx : Z * A, cond kx.2) (map_to_list m))
    by (rewrite Hf; left).
  apply list_elem_of_filter in Hin as [Hc Hin].
  apply elem_of_map_to_list in Hin. apply Is_true_true in Hc. cbn in Hc.
  rewrite (Hnone k x Hin) in Hc. discriminate Hc.
Qed.

Lemma Paginator_page_length {A} (l page : list A) (per_page : nat) n :
  Paginator_page l per_page n = Some page →
  (length page ≤ per_page)%nat ∧ page ⊆ l.
Proof.
  unfold Paginator_page. repeat case_match; try done. intros [= <-]. split.
  - rewrite length_take. lia.
  - etrans; [apply subseteq_take|apply subseteq_drop].
Qed.

Lemma paginate_queryset_length {A} (l page : list A) (page_size : nat) pg :
  paginate_queryset l page_size pg = Some page →
  page ⊆ l ∧ (page_size ≠ 0%nat → (length page ≤ page_size)%nat).
Proof.
  unfold paginate_queryset. case_bool_decide as Hz.
  - intros [= <-]. split; [done|]. intros Hne. by destruct Hne.
  - destruct pg; try done; intros Hp;
      apply Paginator_page_length in Hp as [? ?]; auto.
Qed.

Section ListPages.
Context `{F : Forms} `{cfg : Settings}.
Variables (import_time now : Z).

Lemma index_renders request w :
  method request = GET →
  serve import_time now IndexListView request w
  = (match paginate_queryset
             (eval (db w) (IndexListView_get_queryset import_time))
             MAX_POST_ON_PAGE (GET_page request) with
     | Some object_list =>
         Render "blog/index.html" (list_context object_list None None)
     | None => NotFound
     end,
     logged w [Handler GET; DbQuery MPost]).
Proof.
  intros Hm. destruct w as [d c tr], request as [m ru q pg].
  cbn in Hm. subst m.
  cbv beta iota zeta delta
    [serve respond view_body IndexListView_dispatch View_dispatch
     read_handlers BaseListView_get run_queryset
     mbind M_bind mret M_ret raise log get_db
     db cache trace logged method user POST_data GET_page fst snd].
  match goal with
  | |- context [paginate_queryset ?l ?n ?pg] =>
      destruct (paginate_queryset l n pg)
  end; by flat_trace.
Qed.

Lemma category_renders request w s ck cat :
  method request = GET →
  categories (db w) !! ck = Some cat →
  slug cat = s → category_is_published cat = true →
  (∀ k c, categories (db w) !! k = Some c → slug c = s →
          category_is_published c = true → k = ck) →
  serve import_time now (CategoryListView s) request w
  = (match paginate_queryset
             (eval (db w) (create_queryset now (category_posts ck) true true))
             MAX_POST_ON_PAGE (GET_page request) with
     | Some object_list =>
         Render "blog/category.html"
           (list_context object_list (Some cat) None)
     | None => NotFound
     end,
     logged w [Handler GET; DbQuery MCategory; DbQuery MPost]).
Proof.
  intros Hm Hc Hs Hpub Huniq.
  pose proof (filter_single (categories (db w))
                (λ c : Category,
                   bool_decide (slug c = s) && category_is_published c)
                ck cat Hc) as Hf.
  cbv beta in Hf. rewrite Hpub, bool_decide_eq_true_2 in Hf by done.
  specialize (Hf eq_refl).
  assert (Huniq' : ∀ k' x', categories (db w) !! k' = Some x' →
            bool_decide (slug x' = s) && category_is_published x' = true →
            k' = ck).
  { intros k c0 Hk Hcond. apply andb_true_iff in Hcond as [Hs0 Hp0].
    apply bool_decide_eq_true in Hs0. eauto. }
  specialize (Hf Huniq'). clear Huniq'.
  destruct w as [d c tr], request as [m ru q pg]. cbn in Hm. subst m.
  destruct d as [us cs ps cms]. exec_in Hf.
  cbv beta iota zeta delta
    [serve respond view_body CategoryListView_dispatch View_dispatch
     read_handlers BaseListView_get CategoryListView_get_queryset
     run_queryset get_object_or_404_by
     mbind M_bind mret M_ret raise log get_db
     users categories posts comments
     db cache trace logged method user POST_data GET_page fst snd].
  rewrite Hf. cbv beta iota.
  match goal with
  | |- context [paginate_queryset ?l ?n ?pg] =>
      destruct (paginate_queryset l n pg)
  end; by flat_trace.
Qed.

Lemma category_missing request w s :
  method request = GET ∨ method request = HEAD →
  (∀ k c, categories (db w) !! k = Some c → slug c = s →
          category_is_published c = false) →
  serve import_time now (CategoryListView s) request w
  = (NotFound, logged w [Handler (method request); DbQuery MCategory]).
Proof.
  intros Hm Hnone.
  pose proof (filter_none (categories (db w))
                (λ c : Category,
                   bool_decide (slug c = s) && category_is_published c))
    as Hf.
  cbv beta in Hf.
  assert (Hnone' : ∀ k x, categories (db w) !! k = Some x →
            bool_decide (slug x = s) && category_is_published x = false).
  { intros k c0 Hk. apply andb_false_iff.
    destruct (decide (slug c0 = s)) as [Hs|Hs].
    - right. eauto.
    - left. by apply bool_decide_eq_false. }
  specialize (Hf Hnone'). clear Hnone'.
  destruct w as [d c tr], request as [m ru q pg].
  destruct d as [us cs ps cms]. exec_in Hf. exec_in Hm.
  destruct Hm as [-> | ->]; exec; rewrite Hf; by flat_trace.
Qed.

(** X11: the category page.  With a published category under the slug
    (the only published one of that slug), a GET is answered with a page
    cut from a list that is sorted by descending [pub_date] and holds
    exactly the posts of that category that are published and dated
    before [now], each with its number of comments.  When no published
    category has the slug (none at all, or only unpublished ones) the
    answer to GET and HEAD is 404 after the one lookup. *)
Theorem category_page request w s :
  (∀ ck cat,
      method request = GET →
      categories (db w) !! ck = Some cat →
      slug cat = s → category_is_published cat = true →
      (∀ k c, categories (db w) !! k = Some c → slug c = s →
              category_is_published c = true → k = ck) →
      ∃ rows,
        serve import_time now (CategoryListView s) request w
        = (match paginate_queryset rows MAX_POST_ON_PAGE (GET_page request) with
           | Some object_list =>
               Render "blog/category.html"
                 (list_context object_list (Some cat) None)
           | None => NotFound
           end,
           logged w [Handler GET; DbQuery MCategory; DbQuery MPost])
        ∧ StronglySorted newer_first rows
        ∧ ∀ r, r ∈ rows
               ↔ posts (db w) !! row_pk r = Some (row_post r)
                 ∧ category (row_post r) = Some ck
                 ∧ pub_date (row_post r) < now
                 ∧ is_published (row_post r) = true
                 ∧ comment_count r
                   = Some (count_comments (db w) (row_pk r)))
  ∧ (method request = GET ∨ method request = HEAD →
     (∀ k c, categories (db w) !! k = Some c → slug c = s →
             category_is_published c = false) →
     serve import_time now (CategoryListView s) request w
     = (NotFound, logged w [Handler (method request); DbQuery MCategory])).
Proof.
  split; [|apply category_missing].
  intros ck cat Hm Hc Hs Hpub Huniq.
  eexists. split; [by apply (category_renders request w s ck cat)|].
  split.
  - unfold create_queryset. cbn [eval].
    apply StronglySorted_merge_sort; apply _.
  - intros r. rewrite elem_of_create_queryset. cbn [in_manager].
    rewrite bool_decide_eq_true. split.
    + intros (Hp & Hcat & Hv & Hcount).
      destruct (Hv eq_refl) as (Hlt & Hpubl & _). auto.
    + intros (Hp & Hcat & Hlt & Hpubl & Hcount).
      repeat split; [done..| |done]. exists ck, cat. auto.
Qed.

(** X12: the index page is filtered with the clock of the moment the
    module was imported, not of the request.  A GET is answered with a
    page cut from a list, sorted by descending [pub_date], of exactly the
    posts that are published, in a published category and dated before
    [import_time]; a post dated at or after [import_time] is not on any
    index page, however late the request. *)
Theorem index_page request w :
  method request = GET →
  ∃ rows,
    serve import_time now IndexListView request w
    = (match paginate_queryset rows MAX_POST_ON_PAGE (GET_page request) with
       | Some object_list =>
           Render "blog/index.html" (list_context object_list None None)
       | None => NotFound
       end,
       logged w [Handler GET; DbQuery MPost])
    ∧ StronglySorted newer_first rows
    ∧ (∀ r, r ∈ rows
            ↔ posts (db w) !! row_pk r = Some (row_post r)
              ∧ row_visible (db w) import_time r
              ∧ comment_count r = Some (count_comments (db w) (row_pk r)))
    ∧ (∀ r, r ∈ rows → pub_date (row_post r) < import_time).
Proof.
  intros Hm. eexists. split; [by apply index_renders|].
  assert (Hrows : ∀ r,
    r ∈ eval (db w) (IndexListView_get_queryset import_time)
    ↔ posts (db w) !! row_pk r = Some (row_post r)
      ∧ row_visible (db w) import_time r
      ∧ comment_count r = Some (count_comments (db w) (row_pk r))).
  { intros r. rewrite elem_of_index_queryset, elem_of_create_queryset.
    cbn [in_manager]. split.
    - intros (? & _ & Hv & ?). auto.
    - intros (? & ? & ?). auto. }
  split; [|split; [exact Hrows|]].
  - unfold IndexListView_get_queryset. cbn [eval].
    apply StronglySorted_merge_sort; apply _.
  - intros r Hr. apply Hrows in Hr as (_ & (Hlt & _) & _). exact Hlt.
Qed.

(** X13: no list page is longer than [MAX_POST_ON_PAGE] (when that is
    not zero): whatever the view, the requester, the method and the page
    asked for, a rendered list context holds at most that many rows. *)
Theorem page_size_bound v request w t object_list category_ profile :
  (serve import_time now v request w).1
  = Render t (list_context object_list category_ profile) →
  MAX_POST_ON_PAGE ≠ 0%nat →
  (length object_list ≤ MAX_POST_ON_PAGE)%nat.
Proof.
  intros Hr Hmax. destruct w as [d c tr], request as [m ru q pg].
  destruct v, m; revert Hr;
    cbv beta iota zeta delta
      [serve respond view_body
       IndexListView_dispatch CategoryListView_dispatch
       ProfileListView_dispatch
       CategoryListView_get_queryset ProfileListView_get_queryset
       BaseListView_get run_queryset
       add_comment login_required LoginRequiredMixin_dispatch View_dispatch
       read_handlers form_handlers delete_handlers
       ProfileSuccessUrlMixin_get_success_url user_instance
       PostCreateView_dispatch PostCreateView_post PostCreateView_form_valid
       PostDetailView_dispatch PostDetailView_get_object
       PostDetailView_get_context_data
       ProfileUpdateView_dispatch ProfileUpdateView_get
       ProfileUpdateView_post
       CommonPostMixin_dispatch PostUpdateView_dispatch PostUpdateView_get
       PostUpdateView_post
       PostDeleteView_dispatch PostDeleteView_get PostDeleteView_delete
       DeletionMixin_delete_Post
       CommentMixin_dispatch CommentUpdateView_dispatch CommentUpdateView_get
       CommentUpdateView_post
       CommentDeleteView_dispatch CommentDeleteView_get
       CommentDeleteView_delete
       ProfileCreateView_dispatch ProfileCreateView_post
       get_object_or_404 get_object_or_404_by
       Post_insert Post_update Comment_insert Comment_update
       User_insert User_update post_comments_delete Post_delete
       Comment_delete
       mbind M_bind mret M_ret raise log get_db put_db cache_clear
       set_users set_posts set_comments users categories posts comments
       db cache trace logged method user POST_data GET_page is_authenticated
       fst snd];
    repeat (inner_match; cbv beta iota);
    intros Hr; try discriminate Hr;
    injection Hr as _ <- _ _;
    match goal with
    | E : paginate_queryset _ _ _ = Some _ |- _ =>
        apply paginate_queryset_length in E as [_ E]; by apply E
    end.
Qed.

End ListPages.

(** ** Methods and tables *)

Section Methods.
Context `{F : Forms} `{cfg : Settings}.
Variables (import_time now : Z).

(** X14: on every class-based view a GET, HEAD, OPTIONS, PATCH or TRACE
    request leaves the database and the cache as they were, whoever asks
    and whatever is submitted.  ([add_comment], a plain function, is not
    covered.) *)
Theorem safe_methods_do_not_write v request w :
  (∀ post_id, v ≠ AddComment post_id) →
  method request = GET ∨ method request = HEAD ∨ method request = OPTIONS
    ∨ method request = PATCH ∨ method request = TRACE →
  db (serve import_time now v request w).2 = db w
  ∧ cache (serve import_time now v request w).2 = cache w.
Proof.
  intros Hv Hm. destruct w as [d c t], request as [m ru q pg].
  exec_in Hm.
  destruct v; try (by destruct (Hv post_id));
    destruct Hm as [-> |[-> |[-> |[-> | ->]]]];
    run_all; by destruct d.
Qed.


(** X16: which tables a view can change.  No view writes the category
    table; the user table is written only by ProfileUpdateView and
    ProfileCreateView; the post table only by PostCreateView,
    PostUpdateView and PostDeleteView; the comment table only by
    [add_comment], CommentUpdateView, CommentDeleteView and
    PostDeleteView. *)
Theorem tables_written v request w :
  let d' := db (serve import_time now v request w).2 in
  categories d' = categories (db w)
  ∧ (v ≠ ProfileUpdateView → v ≠ ProfileCreateView →
     users d' = users (db w))
  ∧ (v ≠ PostCreateView → (∀ p, v ≠ PostUpdateView p) →
     (∀ p, v ≠ PostDeleteView p) →
     posts d' = posts (db w))
  ∧ ((∀ p, v ≠ AddComment p) → (∀ p c, v ≠ CommentUpdateView p c) →
     (∀ p c, v ≠ CommentDeleteView p c) → (∀ p, v ≠ PostDeleteView p) →
     comments d' = comments (db w)).
Proof.
  destruct w as [d c t], request as [m ru q pg].
  destruct v, m; run_all;
    (split; [by destruct d|]);
    (split; [intros Hn1 Hn2; try (by destruct Hn1); try (by destruct Hn2);
             by destruct d|]);
    (split; [intros Hn1 Hn2 Hn3; try (by destruct Hn1);
             try (by destruct (Hn2 post_id));
             try (by destruct (Hn3 post_id)); by destruct d|]);
    intros Hn1 Hn2 Hn3 Hn4; try (by destruct (Hn1 post_id));
    try (by destruct (Hn2 post_id comment_id));
    try (by destruct (Hn3 post_id comment_id));
    try (by destruct (Hn4 post_id)); by destruct d.
Qed.

(** X17: the three list views and the detail view answer POST, PUT,
    PATCH, DELETE and TRACE with 405 and OPTIONS with the options reply,
    without a lookup, a check or a log entry: a POST to the detail page
    of a missing post is 405, not 404. *)
Theorem read_views_other_methods v request w :
  v = IndexListView ∨ (∃ s, v = CategoryListView s)
    ∨ (∃ name, v = ProfileListView name) ∨ (∃ p, v = PostDetailView p) →
  method request ≠ GET → method request ≠ HEAD →
  serve import_time now v request w
  = (if bool_decide (method request = OPTIONS) then OptionsReply
     else NotAllowed, w).
Proof.
  intros Hv Hg Hh. destruct w as [d c t], request as [m ru q pg].
  exec_in Hg. exec_in Hh.
  destruct Hv as [-> |[[s ->]|[[name ->]|[p ->]]]]; destruct m;
    try (by destruct Hg); try (by destruct Hh); exec; done.
Qed.

End Methods.

(** ** Requests in sequence *)

Lemma count_comments_insert d k c p :
  comments d !! k = None →
  count_comments (set_comments (insert k c) d) p
  = (count_comments d p + (if decide (comment_post c = p) then 1 else 0))%nat.
Proof.
  intros Hk. unfold count_comments. destruct d as [us cs ps cms]. cbn in *.
  rewrite (map_to_list_insert cms k c Hk), filter_cons. cbn.
  destruct (decide (comment_post c = p)); cbn; lia.
Qed.

Lemma post_comments_list d p :
  map_to_list (post_comments d p)
  ≡ₚ filter (λ kc : Z * Comment, comment_post kc.2 = p)
       (map_to_list (comments d)).
Proof.
  apply NoDup_Permutation.
  - apply NoDup_map_to_list.
  - apply NoDup_filter, NoDup_map_to_list.
  - intros [k c]. unfold post_comments.
    rewrite elem_of_map_to_list, map_lookup_filter_Some, list_elem_of_filter,
      elem_of_map_to_list. tauto.
Qed.

Lemma count_comments_length d p :
  count_comments d p = length (map_to_list (post_comments d p)).
Proof. unfold count_comments. by rewrite post_comments_list. Qed.

Lemma count_comments_none d p :
  (∀ k c, comments d !! k = Some c → comment_post c ≠ p) →
  count_comments d p = 0%nat.
Proof.
  intros Hnone. unfold count_comments.
  destruct (filter _ (map_to_list (comments d))) as [|[k c] l] eqn:Hf;
    [done|].
  assert (Hin : (k, c) ∈ filter (λ kc : Z * Comment, comment_post kc.2 = p)
                           (map_to_list (comments d)))
    by (rewrite Hf; left).
  apply list_elem_of_filter in Hin as [Hc Hin].
  apply elem_of_map_to_list in Hin. by destruct (Hnone k c Hin).
Qed.

Section Sequences.
Context `{F : Forms} `{cfg : Settings}.
Variables (import_time now : Z).

Lemma add_comment_valid_run request w post_id post user_pk u c :
  user request = Authenticated user_pk u →
  posts (db w) !! post_id = Some post →
  CommentEditForm (POST_data request) None = Some c →
  serve import_time now (AddComment post_id) request w
  = (Redirect (url_post_detail post_id),
     {| db := set_comments
                (insert (next_pk (comments (db w)))
                        (Comment_for c user_pk post_id)) (db w);
        cache := cache w;
        trace := trace w ++ [LoginCheck; Handler (method request);
                             DbQuery MPost; DbWrite MComment] |}).
Proof.
  intros Hu Hp Hf. destruct w as [d cc t], request as [m ru q pg].
  destruct d as [us cs ps cms]. exec_in Hu; exec_in Hp; exec_in Hf. subst ru.
  exec. rewrite Hp. cbv beta iota. rewrite Hf. cbv beta iota.
  by flat_trace.
Qed.

(** What a rendered detail page holds. *)
Lemma detail_context_of request w now' post_id t p l :
  (serve import_time now' (PostDetailView post_id) request w).1
  = Render t (detail_context p l) →
  posts (db w) !! post_id = Some p
  ∧ l = map_to_list (post_comments (db w) post_id).
Proof.
  destruct w as [d c tr], request as [m ru q pg].
  destruct m; run_all; intros Hr; try discriminate Hr;
    injection Hr as _ <- <-; done.
Qed.

(** X18: a comment that [add_comment] saved is on the detail page of its
    post from then on: in the world left by a successful [add_comment],
    every rendering of that post's detail page lists the new comment,
    the comment count of the post has grown by one and the count of
    every other post is as before. *)
Theorem comment_round_trip request w post_id post user_pk u c :
  user request = Authenticated user_pk u →
  posts (db w) !! post_id = Some post →
  CommentEditForm (POST_data request) None = Some c →
  let w1 := (serve import_time now (AddComment post_id) request w).2 in
  (∀ now2 request2 t p l,
      (serve import_time now2 (PostDetailView post_id) request2 w1).1
      = Render t (detail_context p l) →
      (next_pk (comments (db w)), Comment_for c user_pk post_id) ∈ l)
  ∧ count_comments (db w1) post_id = S (count_comments (db w) post_id)
  ∧ (∀ p', p' ≠ post_id →
           count_comments (db w1) p' = count_comments (db w) p').
Proof.
  intros Hu Hp Hf w1. subst w1.
  rewrite (add_comment_valid_run request w post_id post user_pk u c)
    by done.
  cbn [snd]. split; [|split].
  - intros now2 request2 t p l Hr.
    apply detail_context_of in Hr as [_ ->]. cbn [db].
    apply elem_of_map_to_list. unfold post_comments.
    apply map_lookup_filter_Some. split; [|done].
    destruct (db w); cbn. apply lookup_insert_eq.
  - cbn [db]. rewrite count_comments_insert by apply next_pk_fresh.
    cbn. rewrite decide_True by done. lia.
  - intros p' Hne. cbn [db].
    rewrite count_comments_insert by apply next_pk_fresh.
    cbn. rewrite decide_False by done. lia.
Qed.

(** X19: the comment count shown in a listing is the number of comments
    the detail page shows: on one database, a row annotated by
    [create_queryset] for a post carries the length of the comment list
    a rendered detail page of that post holds. *)
Theorem count_matches_detail request w now' post_id t p l
    listing_time manager filters r :
  (serve import_time now' (PostDetailView post_id) request w).1
  = Render t (detail_context p l) →
  r ∈ eval (db w) (create_queryset listing_time manager filters true) →
  row_pk r = post_id →
  comment_count r = Some (length l).
Proof.
  intros Hr Hin Hpk. apply detail_context_of in Hr as [_ ->].
  apply elem_of_create_queryset in Hin as (_ & _ & _ & ->).
  by rewrite Hpk, count_comments_length.
Qed.

(** X20: a deleted post is gone for every later request: in the world
    left by the author's deletion, the detail page of the post is 404
    for every requester, a second deletion request is 404, no queryset
    of [create_queryset] holds the post, and no comment counts for
    it. *)
Theorem deleted_post_is_gone request w post_id post u :
  posts (db w) !! post_id = Some post →
  user request = Authenticated (author post) u →
  method request = POST ∨ method request = DELETE →
  let w1 := (serve import_time now (PostDeleteView post_id) request w).2 in
  (∀ now2 request2,
      method request2 = GET ∨ method request2 = HEAD →
      (serve import_time now2 (PostDetailView post_id) request2 w1).1
      = NotFound)
  ∧ (∀ now2 request2,
      (serve import_time now2 (PostDeleteView post_id) request2 w1).1
      = NotFound)
  ∧ (∀ t manager filters annotations r,
      r ∈ eval (db w1) (create_queryset t manager filters annotations) →
      row_pk r ≠ post_id)
  ∧ count_comments (db w1) post_id = 0%nat.
Proof.
  intros Hp Hu Hm w1. subst w1.
  rewrite (PostDeleteView_deletes import_time now request w post_id post u)
    by done.
  cbn [snd]. destruct w as [[us cs ps cms] c t]. cbn [db cache trace].
  assert (Hgone : delete post_id ps !! post_id = None)
    by apply lookup_delete_eq.
  split; [|split; [|split]].
  - intros now2 [m2 ru2 q2 pg2] Hm2. exec_in Hm2.
    destruct Hm2 as [-> | ->]; exec; rewrite Hgone; done.
  - intros now2 [m2 ru2 q2 pg2]. exec. rewrite Hgone. done.
  - intros t0 manager filters annotations r Hin Heq.
    apply elem_of_create_queryset in Hin as (Hrow & _).
    rewrite Heq in Hrow. cbn in Hrow. rewrite Hgone in Hrow.
    discriminate Hrow.
  - apply count_comments_none. cbn. intros k cm Hk.
    apply map_lookup_filter_Some in Hk as [_ Hne]. exact Hne.
Qed.

(** X21: no view leaves a comment without its post.  If every comment
    points at an existing post, and the comment form does not move a
    comment to another post when it edits one, then after any request to
    any view every comment still points at an existing post. *)
Theorem comments_keep_their_posts v request w :
  (∀ q c c', CommentEditForm q (Some c) = Some c' →
             comment_post c' = comment_post c) →
  comments_have_posts (db w) →
  comments_have_posts (db (serve import_time now v request w).2).
Proof.
  intros Hform Hinv. destruct w as [d c t], request as [m ru q pg].
  destruct d as [us cs ps cms]. unfold comments_have_posts in *.
  cbn [db posts comments] in Hinv.
  destruct v, m; run_all; cbv beta iota; intros kk cc Hkk;
    try (by eapply Hinv).
  all: try (apply lookup_insert_is_Some';
            right; by eapply Hinv).
  all: try (apply lookup_insert_Some in Hkk as [[_ <-]|[_ Hkk]];
            [|by eapply Hinv]).
  all: try (cbn; by eauto).
  all: try (apply lookup_delete_Some in Hkk as [_ Hkk]; by eapply Hinv).
  all: try (apply map_lookup_filter_Some in Hkk as [Hkk Hne];
            apply map_lookup_filter_Some in Hkk as [Hkk _]; cbn in Hne;
            rewrite lookup_delete_ne by congruence; by eapply Hinv).
  all: match goal with
       | Hf : CommentEditForm _ (Some _) = Some _ |- _ =>
           rewrite (Hform _ _ _ Hf); by eapply Hinv
       end.
Qed.

End Sequences.

(** ** The context of the comment deletion page *)

(** X22: [CommentDeleteView.get_context_data] never fails with
    [KeyError]: whatever context the parent class built, with a form
    entry or without, it returns a context that has no form entry and
    every other entry as it was. *)
Theorem CommentDeleteView_context_without_form {V}
    (super_context : gmap string V) :
  ∃ context,
    CommentDeleteView_get_context_data super_context = Some context
    ∧ context !! "form"%string = None
    ∧ ∀ key, key ≠ "form"%string → context !! key = super_context !! key.
Proof.
  unfold CommentDeleteView_get_context_data, dict_del. cbv zeta.
  case_bool_decide as Hform.
  - destruct Hform as [x Hx]. rewrite Hx. eexists. split; [done|].
    split; [apply lookup_delete_eq|].
    intros key Hne. by apply lookup_delete_ne.
  - eexists. split; [done|]. split; [|done].
    by apply eq_None_not_Some.
Qed.

(** ** The theorems on the sample data *)

Section Examples.
#[local] Existing Instance Sample.forms.
#[local] Existing Instance Sample.settings.

(** The full index queryset on the sample data comes out newest first. *)
Lemma create_queryset_flags_witness :
  StronglySorted newer_first
    (eval Sample.db0 (create_queryset 10 Post_objects true true)).
Proof.
  exact (proj1 (proj2 (proj2 (proj2 (proj2 (proj2 (proj2
           (create_queryset_flags 10 Post_objects true true)))))))
           Sample.db0 eq_refl).
Defined.

(** Bob asks to delete alice's post 1: refused, nothing changes. *)
Lemma mutation_only_by_author_witness :
  let resp := (serve 0 10 (PostDeleteView 1) (Sample.by_bob POST) Sample.w0).1 in
  let w' := (serve 0 10 (PostDeleteView 1) (Sample.by_bob POST) Sample.w0).2 in
  db w' = db Sample.w0 ∧ cache w' = cache Sample.w0
  ∧ (resp = Forbidden ∨ ∃ p, resp = Redirect (url_post_detail p)).
Proof.
  exact (proj2 (mutation_only_by_author 0 10 (PostDeleteView 1)
                  (Sample.by_bob POST) Sample.w0 1 eq_refl) eq_refl).
Defined.

(** Bob and a visitor against alice's post 1 and against comment 2,
    which alice wrote under post 3. *)
Lemma refused_at_dispatch_witness :
  serve 0 10 (PostUpdateView 1) (Sample.by_bob POST) Sample.w0
  = (Redirect (url_post_detail 1),
     logged Sample.w0 [DbQuery MPost; AuthorCheck])
  ∧ serve 0 10 (PostDeleteView 1) (Sample.by_anonymous POST) Sample.w0
    = (Forbidden, logged Sample.w0 [DbQuery MPost; AuthorCheck])
  ∧ serve 0 10 (CommentUpdateView 3 2) (Sample.by_bob POST) Sample.w0
    = (Redirect (url_post_detail 3),
       logged Sample.w0 [DbQuery MComment; AuthorCheck])
  ∧ serve 0 10 (CommentDeleteView 3 2) (Sample.by_bob DELETE) Sample.w0
    = (Forbidden, logged Sample.w0 [DbQuery MComment; AuthorCheck])
  ∧ (∀ e, e ∈ events Sample.w0
                (serve 0 10 (PostDeleteView 1) (Sample.by_bob GET) Sample.w0).2 →
          is_handler e = false ∧ is_write e = false).
Proof.
  split; [|split; [|split; [|split]]].
  - apply (proj1 (refused_at_dispatch 0 10 (Sample.by_bob POST) Sample.w0)
             1 Sample.post1); reflexivity.
  - apply (proj1 (proj2 (refused_at_dispatch 0 10 (Sample.by_anonymous POST)
                           Sample.w0)) 1 Sample.post1); reflexivity.
  - apply (proj1 (proj2 (proj2 (refused_at_dispatch 0 10 (Sample.by_bob POST)
                                  Sample.w0))) 3 2 Sample.comment2);
      reflexivity.
  - apply (proj1 (proj2 (proj2 (proj2
             (refused_at_dispatch 0 10 (Sample.by_bob DELETE) Sample.w0))))
             3 2 Sample.comment2); reflexivity.
  - apply (proj2 (proj2 (proj2 (proj2
             (refused_at_dispatch 0 10 (Sample.by_bob GET) Sample.w0))))
             (PostDeleteView 1) 1); reflexivity.
Defined.

(** Bob comments on post 1 with a valid form. *)
Lemma add_comment_iff_valid_witness :
  (serve 0 10 (AddComment 1) (Sample.by_bob POST) Sample.w0).1
  = Redirect (url_post_detail 1)
  ∧ db (serve 0 10 (AddComment 1) (Sample.by_bob POST) Sample.w0).2
    = set_comments
        (insert 3 {| comment_author := 2; comment_post := 1;
                     comment_text := "hello" |}) Sample.db0.
Proof.
  pose proof (add_comment_iff_valid 0 10 (Sample.by_bob POST) Sample.w0 1
                Sample.post1 2 Sample.bob eq_refl eq_refl) as (Hr & _ & Hv & _).
  split; [exact Hr|].
  exact (proj1 (Hv _ eq_refl)).
Defined.

(** Alice deletes her post 1; comment 1 (under post 1) goes, comment 2
    (under post 3) and post 3 stay. *)
Lemma post_delete_frame_witness :
  let w' := (serve 0 10 (PostDeleteView 1) (Sample.by_alice POST) Sample.w0).2 in
  posts (db w') !! 1 = None
  ∧ posts (db w') !! 3 = Some Sample.post3
  ∧ comments (db w') !! 1 = None
  ∧ comments (db w') !! 2 = Some Sample.comment2.
Proof.
  pose proof (post_delete_frame 0 10 (Sample.by_alice POST) Sample.w0 1
                Sample.post1 Sample.alice eq_refl eq_refl (or_introl eq_refl))
    as (_ & H1 & H2 & H3 & H4 & _).
  split; [exact H1|]. split; [exact (H2 3 ltac:(discriminate))|].
  split; [exact (H3 1 Sample.comment1 eq_refl eq_refl)|].
  exact (H4 2 Sample.comment2 eq_refl ltac:(discriminate)).
Defined.

(** Post 1 is on the category page of travel built at clock 10 and
    opens for a visitor at clock 12. *)
Lemma listed_post_is_viewable_witness :
  PostDetailView_get_object 12 (Sample.by_anonymous GET) 1 Sample.w0
  = (Ok Sample.post1, logged Sample.w0 [DbQuery MPost; AuthorCheck]).
Proof.
  refine (proj1 (listed_post_is_viewable 0 10 12 (category_posts 1) false
            (Sample.by_anonymous GET) Sample.w0
            {| row_pk := 1; row_post := Sample.post1; comment_count := None |}
            _ _)).
  - left. apply (bool_decide_unpack _). vm_compute. exact I.
  - lia.
Defined.

(** Alice opens her unpublished, future-dated, uncategorised post 2,
    and her own profile page lists it. *)
Lemma author_bypasses_visibility_witness :
  PostDetailView_get_object 10 (Sample.by_alice GET) 2 Sample.w0
  = (Ok Sample.post2, logged Sample.w0 [DbQuery MPost; AuthorCheck])
  ∧ ∃ rows,
      (serve 0 10 (ProfileListView "alice") (Sample.by_alice GET) Sample.w0).1
      = match paginate_queryset rows 10 no_page with
        | Some object_list =>
            Render "blog/profile.html"
              (list_context object_list None (Some Sample.alice))
        | None => NotFound
        end
      ∧ {| row_pk := 2; row_post := Sample.post2;
           comment_count := Some 0%nat |} ∈ rows.
Proof.
  pose proof (author_bypasses_visibility 0 10 (Sample.by_alice GET) Sample.w0)
    as [Hdetail Hprofile].
  split.
  - exact (Hdetail 2 Sample.post2 Sample.alice eq_refl eq_refl).
  - destruct (Hprofile "alice"%string 1 Sample.alice eq_refl eq_refl eq_refl)
      as (l & Hl & Hown & _).
    + intros pk' u' Hpk Hname.
      destruct (decide (pk' = 1)) as [->|Hne1]; [done|].
      destruct (decide (pk' = 2)) as [->|Hne2].
      * vm_compute in Hpk. injection Hpk as <-. discriminate Hname.
      * exfalso. cbn in Hpk.
        rewrite !lookup_insert_ne in Hpk by done. discriminate Hpk.
    + exists l. split; [exact Hl|].
      apply (proj2 (Hown (ex_intro _ Sample.alice eq_refl))).
      repeat split.
Defined.

(** Alice deletes her post 1 and the cache is emptied. *)
Lemma cache_cleared_only_by_post_deletion_witness :
  cache (serve 0 10 (PostDeleteView 1) (Sample.by_alice POST) Sample.w0).2 = ∅
  ∧ CacheClear ∈ events Sample.w0
      (serve 0 10 (PostDeleteView 1) (Sample.by_alice POST) Sample.w0).2.
Proof.
  exact (proj1 (cache_cleared_only_by_post_deletion 0 10 (PostDeleteView 1)
                  (Sample.by_alice POST) Sample.w0)
           1 Sample.post1 Sample.alice eq_refl eq_refl eq_refl
           (or_introl eq_refl)).
Defined.

(** The write of bob's comment on post 1 comes after the login check. *)
Lemma writes_follow_a_check_witness :
  events Sample.w0 (serve 0 10 (AddComment 1) (Sample.by_bob POST) Sample.w0).2
  = [LoginCheck; Handler POST; DbQuery MPost; DbWrite MComment]
  ∧ ∃ c, c ∈ [LoginCheck; Handler POST; DbQuery MPost] ∧ is_check c = true.
Proof.
  pose proof (writes_follow_a_check 0 10 (AddComment 1) (Sample.by_bob POST)
                Sample.w0) as (Hguard & _ & _ & Hadd).
  pose proof (Hadd 1 Sample.post1 2 Sample.bob
                {| comment_author := 0; comment_post := 0;
                   comment_text := "hello" |}
                eq_refl eq_refl eq_refl eq_refl) as Hevs.
  split; [exact Hevs|].
  refine (Hguard _ [LoginCheck; Handler POST; DbQuery MPost]
            (DbWrite MComment) [] Hevs eq_refl).
  discriminate.
Defined.

(** Against a check and then exactly one database access for every
    operation: the index page, asked for by a visitor, is served with no
    authorization check at all, and bob's comment on post 1 takes two
    database accesses after the login check. *)
Lemma index_served_without_check :
  events Sample.w0
    (serve 0 10 IndexListView (Sample.by_anonymous GET) Sample.w0).2
  = [Handler GET; DbQuery MPost]
  ∧ check_then_one_access
      (events Sample.w0
         (serve 0 10 IndexListView (Sample.by_anonymous GET) Sample.w0).2)
    = false
  ∧ check_then_one_access
      (events Sample.w0
         (serve 0 10 (AddComment 1) (Sample.by_bob POST) Sample.w0).2)
    = false.
Proof. repeat split; vm_compute; reflexivity. Qed.

(** A visitor opens post 1 and alice deletes it: two querysets at
    least, each time. *)
Lemma querysets_per_request_witness :
  (2 ≤ count_queries
         (events Sample.w0
            (serve 0 10 (PostDetailView 1) (Sample.by_anonymous GET)
               Sample.w0).2))%nat
  ∧ (2 ≤ count_queries
           (events Sample.w0
              (serve 0 10 (PostDeleteView 1) (Sample.by_alice POST)
                 Sample.w0).2))%nat.
Proof.
  split.
  - exact (proj1 (proj2 (proj1
             (querysets_per_request 0 10 (Sample.by_anonymous GET) Sample.w0)
             1 "blog/detail.html" Sample.post1 [(1, Sample.comment1)]
             eq_refl))).
  - exact (proj2 (proj2
             (querysets_per_request 0 10 (Sample.by_alice POST) Sample.w0)
             1 Sample.post1 Sample.alice eq_refl eq_refl
             (or_introl eq_refl))).
Defined.

(** Against exactly one queryset per request: post 1 served to a
    visitor comes with its comment, the one queryset fetched the post
    and another the comment. *)
Lemma detail_builds_two_querysets :
  (serve 0 10 (PostDetailView 1) (Sample.by_anonymous GET) Sample.w0).1
  = Render "blog/detail.html"
      (detail_context Sample.post1 [(1, Sample.comment1)])
  ∧ DbQuery MPost
    ∈ events Sample.w0
        (serve 0 10 (PostDetailView 1) (Sample.by_anonymous GET) Sample.w0).2
  ∧ DbQuery MComment
    ∈ events Sample.w0
        (serve 0 10 (PostDetailView 1) (Sample.by_anonymous GET) Sample.w0).2
  ∧ count_queries
      (events Sample.w0
         (serve 0 10 (PostDetailView 1) (Sample.by_anonymous GET)
            Sample.w0).2)
    ≠ 1%nat.
Proof.
  split; [vm_compute; reflexivity|].
  split; [apply (bool_decide_unpack _); vm_compute; exact I|].
  split; [apply (bool_decide_unpack _); vm_compute; exact I|].
  vm_compute. discriminate.
Qed.


(** A visitor tries to write a post. *)
Lemma anonymous_sent_to_login_witness :
  serve 0 10 PostCreateView (Sample.by_anonymous POST) Sample.w0
  = (Redirect url_login, logged Sample.w0 [LoginCheck]).
Proof.
  apply (anonymous_sent_to_login 0 10 PostCreateView
           (Sample.by_anonymous POST) Sample.w0 eq_refl).
  right. left. reflexivity.
Defined.

(** Bob on alice's published post 1 at clocks 10 and 3. *)
Lemma detail_for_others_witness :
  PostDetailView_get_object 10 (Sample.by_bob GET) 1 Sample.w0
  = (Ok Sample.post1, logged Sample.w0 [DbQuery MPost; AuthorCheck])
  ∧ PostDetailView_get_object 3 (Sample.by_bob GET) 1 Sample.w0
    = (Raise Http404, logged Sample.w0 [DbQuery MPost; AuthorCheck]).
Proof.
  split.
  - exact (detail_for_others 10 (Sample.by_bob GET) Sample.w0 1 Sample.post1
             1 Sample.travel eq_refl eq_refl eq_refl eq_refl).
  - exact (detail_for_others 3 (Sample.by_bob GET) Sample.w0 1 Sample.post1
             1 Sample.travel eq_refl eq_refl eq_refl eq_refl).
Defined.

(** Post 1 is dated 5: at clock 5 a visitor can open it. *)
Lemma dated_now_viewable_not_listed_witness :
  PostDetailView_get_object 5 (Sample.by_anonymous GET) 1 Sample.w0
  = (Ok Sample.post1, logged Sample.w0 [DbQuery MPost; AuthorCheck]).
Proof.
  exact (proj1 (dated_now_viewable_not_listed 5 (Sample.by_anonymous GET)
                  Sample.w0 1 Sample.post1 1 Sample.travel
                  eq_refl eq_refl eq_refl eq_refl eq_refl eq_refl)).
Defined.

(** There is no post 9 and no comment 9. *)
Lemma missing_object_404_witness :
  serve 0 10 (PostDetailView 9) (Sample.by_bob GET) Sample.w0
  = (NotFound, logged Sample.w0 [Handler GET; DbQuery MPost])
  ∧ serve 0 10 (PostDeleteView 9) (Sample.by_anonymous POST) Sample.w0
    = (NotFound, logged Sample.w0 [DbQuery MPost])
  ∧ serve 0 10 (CommentUpdateView 1 9) (Sample.by_bob POST) Sample.w0
    = (NotFound, logged Sample.w0 [DbQuery MComment])
  ∧ serve 0 10 (AddComment 9) (Sample.by_bob POST) Sample.w0
    = (NotFound, logged Sample.w0 [LoginCheck; Handler POST; DbQuery MPost]).
Proof.
  assert (Hkey : database_key 9) by (unfold database_key; lia).
  split; [|split; [|split]].
  - exact (proj1 (missing_object_404 0 10 (Sample.by_bob GET) Sample.w0)
             9 Hkey eq_refl (or_introl eq_refl)).
  - exact (proj1 (proj2 (missing_object_404 0 10 (Sample.by_anonymous POST)
                           Sample.w0))
             (PostDeleteView 9)
             (or_intror (ex_intro _ 9 (conj eq_refl (conj Hkey eq_refl))))).
  - exact (proj1 (proj2 (proj2 (missing_object_404 0 10 (Sample.by_bob POST)
                                  Sample.w0)))
             (CommentUpdateView 1 9)
             (or_introl (ex_intro _ 1 (ex_intro _ 9
                (conj eq_refl (conj Hkey eq_refl)))))).
  - exact (proj2 (proj2 (proj2 (missing_object_404 0 10 (Sample.by_bob POST)
                                  Sample.w0)))
             9 Hkey eq_refl eq_refl).
Defined.

(** Alice posts: the new row gets key 4 and alice as author. *)
Lemma post_create_witness :
  (serve 0 10 PostCreateView (Sample.by_alice POST) Sample.w0).1
  = Redirect (url_profile "alice")
  ∧ posts (db (serve 0 10 PostCreateView (Sample.by_alice POST) Sample.w0).2)
      !! 4
    = Some {| author := 1; category := Some 1; pub_date := 5;
              is_published := true; post_data := "hello" |}.
Proof.
  pose proof (post_create 0 10 (Sample.by_alice POST) Sample.w0 1 Sample.alice
                eq_refl (or_introl eq_refl)) as (Hr & Hd & _).
  split; [exact Hr|]. rewrite Hd. reflexivity.
Defined.

(** Alice edits her post 1. *)
Lemma post_update_witness :
  (serve 0 10 (PostUpdateView 1) (Sample.by_alice POST) Sample.w0).1
  = Redirect (url_post_detail 1)
  ∧ posts (db (serve 0 10 (PostUpdateView 1) (Sample.by_alice POST)
                 Sample.w0).2) !! 3
    = Some Sample.post3.
Proof.
  pose proof (post_update 0 10 (Sample.by_alice POST) Sample.w0 1 Sample.post1
                Sample.alice eq_refl eq_refl (or_introl eq_refl))
    as (Hr & _ & _ & Hother & _).
  split; [exact Hr|]. rewrite (Hother 3) by discriminate. reflexivity.
Defined.

(** Alice edits her comment 2 (under post 3) through a URL naming post 1:
    the redirect goes to post 1. *)
Lemma comment_update_witness :
  (serve 0 10 (CommentUpdateView 1 2) (Sample.by_alice POST) Sample.w0).1
  = Redirect (url_post_detail 1)
  ∧ comments (db (serve 0 10 (CommentUpdateView 1 2) (Sample.by_alice POST)
                    Sample.w0).2) !! 2
    = Some {| comment_author := 1; comment_post := 3;
              comment_text := "hello" |}.
Proof.
  pose proof (comment_update 0 10 (Sample.by_alice POST) Sample.w0 1 2
                Sample.comment2 Sample.alice eq_refl eq_refl
                (or_introl eq_refl)) as (Hr & _ & Hnew & _).
  split; [exact Hr|exact Hnew].
Defined.

(** Bob deletes his comment 1. *)
Lemma comment_delete_witness :
  serve 0 10 (CommentDeleteView 1 1) (Sample.by_bob POST) Sample.w0
  = (Redirect (url_post_detail 1),
     {| db := set_comments (delete 1) Sample.db0;
        cache := cache Sample.w0;
        trace := [DbQuery MComment; AuthorCheck; LoginCheck; Handler POST;
                  DbQuery MComment; DbWrite MComment] |}).
Proof.
  exact (comment_delete 0 10 (Sample.by_bob POST) Sample.w0 1 1
           Sample.comment1 Sample.bob eq_refl eq_refl (or_introl eq_refl)).
Defined.

(** Alice renames herself to hello and is sent to that profile. *)
Lemma profile_update_witness :
  (serve 0 10 ProfileUpdateView (Sample.by_alice POST) Sample.w0).1
  = Redirect (url_profile "hello")
  ∧ users (db (serve 0 10 ProfileUpdateView (Sample.by_alice POST)
                 Sample.w0).2) !! 2
    = Some Sample.bob.
Proof.
  pose proof (profile_update 0 10 (Sample.by_alice POST) Sample.w0 1
                Sample.alice eq_refl (or_introl eq_refl))
    as (Hr & _ & Hother & _).
  split; [exact Hr|]. rewrite (Hother 2) by discriminate. reflexivity.
Defined.

(** A visitor registers under the name hello: the user is stored under an
    unused key, alice and bob stay, and the visitor is sent to the login
    page.  With an empty form nothing happens. *)
Lemma registration_witness :
  let request := Sample.as_user POST AnonymousUser [("username", "hello")] in
  let r := serve 0 10 ProfileCreateView request Sample.w0 in
  (r.1 = Redirect url_login
   ∧ users Sample.db0 !! next_pk (users Sample.db0) = None
   ∧ users (db r.2) !! next_pk (users Sample.db0)
     = Some {| username := "hello"; user_data := EmptyString |}
   ∧ users (db r.2) !! 1 = Some Sample.alice
   ∧ users (db r.2) !! 2 = Some Sample.bob)
  ∧ serve 0 10 ProfileCreateView (Sample.by_anonymous POST) Sample.w0
    = (Render "registration/registration_form.html" (form_context None true),
       logged Sample.w0 [Handler POST]).
Proof.
  split.
  - pose proof (registration 0 10
                  (Sample.as_user POST AnonymousUser [("username", "hello")])
                  Sample.w0 (or_introl eq_refl))
      as (Hr & Hd & Hfresh & Hkeep & _).
    split; [exact Hr|]. split; [exact Hfresh|].
    split; [rewrite Hd; apply lookup_insert_eq|].
    split; [exact (Hkeep 1 Sample.alice eq_refl)
           |exact (Hkeep 2 Sample.bob eq_refl)].
  - exact (registration 0 10 (Sample.by_anonymous POST) Sample.w0
             (or_introl eq_refl)).
Defined.

(** The page of the category travel, asked for by a visitor at clock 10,
    is cut from rows that hold alice's published post 1 with its one
    comment and not her draft 2; there is no category under the slug
    food. *)
Lemma category_page_witness :
  (∃ rows,
      serve 0 10 (CategoryListView "travel") (Sample.by_anonymous GET)
        Sample.w0
      = (match paginate_queryset rows 10 no_page with
         | Some object_list =>
             Render "blog/category.html"
               (list_context object_list (Some Sample.travel) None)
         | None => NotFound
         end,
         logged Sample.w0 [Handler GET; DbQuery MCategory; DbQuery MPost])
      ∧ {| row_pk := 1; row_post := Sample.post1;
           comment_count := Some 1%nat |} ∈ rows
      ∧ ∀ r, r ∈ rows → row_pk r ≠ 2)
  ∧ serve 0 10 (CategoryListView "food") (Sample.by_anonymous GET) Sample.w0
    = (NotFound, logged Sample.w0 [Handler GET; DbQuery MCategory]).
Proof.
  split.
  - destruct (proj1 (category_page 0 10 (Sample.by_anonymous GET) Sample.w0
                       "travel")
                1 Sample.travel eq_refl eq_refl eq_refl eq_refl)
      as (rows & Hr & _ & Hrows).
    + intros k c Hk _ _.
      destruct (decide (k = 1)) as [->|Hne]; [done|].
      cbn in Hk. rewrite lookup_insert_ne in Hk by done. discriminate Hk.
    + exists rows. split; [exact Hr|]. split.
      * apply Hrows. cbn. repeat split.
      * intros r Hin Hpk. apply Hrows in Hin as (Hp & Hcat & _).
        rewrite Hpk in Hp.
        assert (Hp2 : posts (db Sample.w0) !! 2 = Some Sample.post2)
          by reflexivity.
        rewrite Hp2 in Hp. injection Hp as Hp. rewrite <- Hp in Hcat.
        discriminate Hcat.
  - refine (proj2 (category_page 0 10 (Sample.by_anonymous GET) Sample.w0
                     "food") (or_introl eq_refl) _).
    intros k c Hk Hs.
    destruct (decide (k = 1)) as [->|Hne].
    + vm_compute in Hk. injection Hk as <-. discriminate Hs.
    + cbn in Hk. rewrite lookup_insert_ne in Hk by done. discriminate Hk.
Defined.

(** With the module imported at clock 6, post 3 (dated 7) is not on the
    index page at clock 10. *)
Lemma index_page_witness :
  ∃ rows,
    (serve 6 10 IndexListView (Sample.by_anonymous GET) Sample.w0).1
    = match paginate_queryset rows 10 no_page with
      | Some object_list =>
          Render "blog/index.html" (list_context object_list None None)
      | None => NotFound
      end
    ∧ ∀ r, r ∈ rows → row_pk r ≠ 3.
Proof.
  destruct (index_page 6 10 (Sample.by_anonymous GET) Sample.w0 eq_refl)
    as (rows & Hr & _ & Hrows & Hdate).
  exists rows. split; [by rewrite Hr|].
  intros r Hin Hpk. pose proof (Hdate r Hin) as Hlt.
  apply Hrows in Hin as (Hp & _). rewrite Hpk in Hp.
  assert (Hp3 : posts (db Sample.w0) !! 3 = Some Sample.post3)
    by reflexivity.
  rewrite Hp3 in Hp. injection Hp as Hp. rewrite <- Hp in Hlt.
  vm_compute in Hlt. discriminate Hlt.
Defined.

(** The index page of the sample data has two rows. *)
Lemma page_size_bound_witness :
  (length [ {| row_pk := 3; row_post := Sample.post3;
               comment_count := Some 1%nat |};
            {| row_pk := 1; row_post := Sample.post1;
               comment_count := Some 1%nat |} ] ≤ 10)%nat.
Proof.
  refine (page_size_bound 10 10 IndexListView (Sample.by_anonymous GET)
            Sample.w0 "blog/index.html" _ None None _ _).
  - vm_compute. reflexivity.
  - discriminate.
Defined.

(** Alice looks at the deletion page of her post 1. *)
Lemma safe_methods_do_not_write_witness :
  db (serve 0 10 (PostDeleteView 1) (Sample.by_alice GET) Sample.w0).2
  = Sample.db0.
Proof.
  refine (proj1 (safe_methods_do_not_write 0 10 (PostDeleteView 1)
                   (Sample.by_alice GET) Sample.w0 _ (or_introl eq_refl))).
  discriminate.
Defined.

(** Alice deletes post 1: users and categories stay. *)
Lemma tables_written_witness :
  categories (db (serve 0 10 (PostDeleteView 1) (Sample.by_alice POST)
                    Sample.w0).2) = categories Sample.db0
  ∧ users (db (serve 0 10 (PostDeleteView 1) (Sample.by_alice POST)
                 Sample.w0).2) = users Sample.db0.
Proof.
  pose proof (tables_written 0 10 (PostDeleteView 1) (Sample.by_alice POST)
                Sample.w0) as (Hc & Hu & _).
  split; [exact Hc|]. apply Hu; discriminate.
Defined.

(** A POST to the detail page of the missing post 9. *)
Lemma read_views_other_methods_witness :
  serve 0 10 (PostDetailView 9) (Sample.by_bob POST) Sample.w0
  = (NotAllowed, Sample.w0).
Proof.
  refine (read_views_other_methods 0 10 (PostDetailView 9)
            (Sample.by_bob POST) Sample.w0 _ _ _).
  - right. right. right. by exists 9.
  - discriminate.
  - discriminate.
Defined.

(** Bob's comment on post 1 is counted. *)
Lemma comment_round_trip_witness :
  count_comments
    (db (serve 0 10 (AddComment 1) (Sample.by_bob POST) Sample.w0).2) 1
  = S (count_comments Sample.db0 1).
Proof.
  exact (proj1 (proj2 (comment_round_trip 0 10 (Sample.by_bob POST) Sample.w0
                         1 Sample.post1 2 Sample.bob
                         {| comment_author := 0; comment_post := 0;
                            comment_text := "hello" |}
                         eq_refl eq_refl eq_refl))).
Defined.

(** Post 1 has one comment, on the category page as on its own page. *)
Lemma count_matches_detail_witness :
  comment_count {| row_pk := 1; row_post := Sample.post1;
                   comment_count := Some 1%nat |}
  = Some (length [(1, Sample.comment1)]).
Proof.
  refine (count_matches_detail 0 (Sample.by_anonymous GET) Sample.w0 10 1
            "blog/detail.html" Sample.post1 [(1, Sample.comment1)]
            10 (category_posts 1) true
            {| row_pk := 1; row_post := Sample.post1;
               comment_count := Some 1%nat |} _ _ eq_refl).
  - vm_compute. reflexivity.
  - apply (bool_decide_unpack _). vm_compute. exact I.
Defined.

(** After alice deleted post 1, bob gets 404 for it. *)
Lemma deleted_post_is_gone_witness :
  (serve 0 11 (PostDetailView 1) (Sample.by_bob GET)
     (serve 0 10 (PostDeleteView 1) (Sample.by_alice POST) Sample.w0).2).1
  = NotFound.
Proof.
  exact (proj1 (deleted_post_is_gone 0 10 (Sample.by_alice POST) Sample.w0 1
                  Sample.post1 Sample.alice eq_refl eq_refl
                  (or_introl eq_refl))
           11 (Sample.by_bob GET) (or_introl eq_refl)).
Defined.

(** The sample comments have their posts, also after alice deleted
    post 1. *)
Lemma comments_keep_their_posts_witness :
  comments_have_posts
    (db (serve 0 10 (PostDeleteView 1) (Sample.by_alice POST) Sample.w0).2).
Proof.
  apply (comments_keep_their_posts 0 10 (PostDeleteView 1)
           (Sample.by_alice POST) Sample.w0).
  - intros q c c' Hf. destruct q as [|[? v] q]; [discriminate Hf|].
    injection Hf as <-. reflexivity.
  - intros k c Hk.
    destruct (decide (k = 1)) as [->|Hne1].
    { vm_compute in Hk. injection Hk as <-. by eexists. }
    destruct (decide (k = 2)) as [->|Hne2].
    { vm_compute in Hk. injection Hk as <-. by eexists. }
    cbn in Hk. rewrite !lookup_insert_ne in Hk by done. discriminate Hk.
Defined.

(** A context with a form and an object. *)
Lemma CommentDeleteView_context_without_form_witness :
  ∃ context,
    CommentDeleteView_get_context_data
      (<["form" := 0]> (<["object" := 1]> (∅ : gmap string Z)))
    = Some context
    ∧ context !! "form"%string = None
    ∧ context !! "object"%string = Some 1.
Proof.
  destruct (CommentDeleteView_context_without_form
              (<["form" := 0]> (<["object" := 1]> (∅ : gmap string Z))))
    as (context & Heq & Hnone & Hother).
  exists context. split; [exact Heq|]. split; [exact Hnone|].
  rewrite (Hother "object"%string) by discriminate. reflexivity.
Defined.

End Examples.
